(** * lunavl.sdk.estimator_collections: the lazy collection of face estimators

    A shallow embedding of [FaceEstimatorsCollection] (the enum
    [FaceEstimator], the slot table [__slots__], the two name/tag lookups,
    [initEstimator], the lazy property getters, the setters, the
    [faceEngine] setter and [removeEstimator]) together with the theorems
    that settle what the specification says about them.

    Python strings are [string]s of ASCII characters, the object is a record
    with one field per slot, exceptions are values of [Exception], and a
    method is a state transformer that also yields either a value or the
    exception it raised: an exception does not undo the assignments made
    before it. *)

From Stdlib Require Import String Ascii List ZArith Bool Arith Lia.
Import ListNotations.

Local Open Scope string_scope.

(** ** The fragment of Python's [str] the module uses *)

Module Py.

(** [c.lower()] for an ASCII character: the letters [A]..[Z] move to
    [a]..[z], every other character is kept.  All names of the module are
    ASCII. *)
Definition lower_ascii (c : ascii) : ascii :=
  let n := nat_of_ascii c in
  if (65 <=? n)%nat && (n <=? 90)%nat then ascii_of_nat (n + 32) else c.

Fixpoint lower (s : string) : string :=
  match s with
  | EmptyString => EmptyString
  | String c r => String (lower_ascii c) (lower r)
  end.

Definition len (s : string) : Z := Z.of_nat (String.length s).

(** A slice bound is first made absolute: a negative bound counts from
    the end and stops at [0], a non-negative one stops at the length. *)
Definition clamp (i n : Z) : Z :=
  if (i <? 0)%Z then Z.max (i + n) 0 else Z.min i n.

(** [s[start:stop]]; empty when the bounds cross. *)
Definition slice (s : string) (start stop : Z) : string :=
  let n := len s in
  let a := clamp start n in
  let b := clamp stop n in
  substring (Z.to_nat a) (Z.to_nat (b - a)) s.

End Py.

(** ** Exceptions and results *)

(** The ten factory operations of the engine that the module calls. *)
Inductive Factory : Type :=
| createBasicAttributesEstimator
| createEyeEstimator
| createEmotionEstimator
| createGazeEstimator
| createMouthEstimator
| createWarpQualityEstimator
| createHeadPoseEstimator
| createAGSEstimator
| createFaceDescriptorEstimator
| createFaceWarper.

Inductive Exception : Type :=
| ValueError (msg : string)
| AttributeError (attribute : string)
| EngineError (engine : nat) (f : Factory) (call : nat).

Inductive result (A : Type) : Type :=
| Ok (a : A)
| Raise (e : Exception).

Arguments Ok {A} a.
Arguments Raise {A} e.

(** ** The enum [FaceEstimator] *)

Inductive FaceEstimator : Type :=
| HeadPose
| Eye
| Emotions
| BasicAttributes
| GazeDirection
| MouthState
| WarpQuality
| AGS
| Descriptor.

Module FaceEstimator_.

Definition value (e : FaceEstimator) : Z :=
  match e with
  | HeadPose => 1
  | Eye => 2
  | Emotions => 3
  | BasicAttributes => 4
  | GazeDirection => 5
  | MouthState => 6
  | WarpQuality => 7
  | AGS => 8
  | Descriptor => 9
  end.

Definition name (e : FaceEstimator) : string :=
  match e with
  | HeadPose => "HeadPose"
  | Eye => "Eye"
  | Emotions => "Emotions"
  | BasicAttributes => "BasicAttributes"
  | GazeDirection => "GazeDirection"
  | MouthState => "MouthState"
  | WarpQuality => "WarpQuality"
  | AGS => "AGS"
  | Descriptor => "Descriptor"
  end.

(** [for estimator in FaceEstimator] visits the members in definition
    order. *)
Definition members : list FaceEstimator :=
  [HeadPose; Eye; Emotions; BasicAttributes; GazeDirection; MouthState;
   WarpQuality; AGS; Descriptor].

Definition eqb (a b : FaceEstimator) : bool := (value a =? value b)%Z.

Definition eq_dec (a b : FaceEstimator) : {a = b} + {a <> b}.
Proof. decide equality. Defined.

End FaceEstimator_.

(** What a caller can pass where a [FaceEstimator] is expected.  Python does
    not check the annotation, so besides the nine members there are values of
    other types: integers, strings, [None], and objects of other classes that
    happen to have a [name] attribute holding a string (a member of another
    enum, for one). *)
Inductive PyArg : Type :=
| Member (e : FaceEstimator)
| PyInt (z : Z)
| PyStr (s : string)
| PyNoneArg
| Named (name : string).

(** [estimator == FaceEstimator.X]: members of a plain [Enum] are equal only
    to themselves, not to their values. *)
Definition py_eq (estimator : PyArg) (x : FaceEstimator) : bool :=
  match estimator with
  | Member e => FaceEstimator_.eqb e x
  | _ => false
  end.

(** [estimator.name] *)
Definition attr_name (estimator : PyArg) : result string :=
  match estimator with
  | Member e => Ok (FaceEstimator_.name e)
  | Named n => Ok n
  | PyInt _ | PyStr _ | PyNoneArg => Raise (AttributeError "name")
  end.

(** ** [__slots__] and the two lookups *)

Definition __slots__ : list string :=
  ["_headPoseEstimator";
   "_eyeEstimator";
   "_gazeDirectionEstimator";
   "_mouthStateEstimator";
   "_warpQualityEstimator";
   "_basicAttributesEstimator";
   "_emotionsEstimator";
   "_faceEngine";
   "_AGSEstimator";
   "warper";
   "_descriptorEstimator"].

(** [estimatorAttributeName[1 : -len("Estimator")]] *)
Definition strip (estimatorAttributeName : string) : string :=
  Py.slice estimatorAttributeName 1 (- Py.len "Estimator").

Fixpoint first_member (stripped : string) (ms : list FaceEstimator)
  : result FaceEstimator :=
  match ms with
  | [] => Raise (ValueError "Bad attribute name")
  | estimator :: rest =>
      if Py.lower (FaceEstimator_.name estimator) =? stripped
      then Ok estimator
      else first_member stripped rest
  end.

Definition _getEstimatorByAttributeName (estimatorAttributeName : string)
  : result FaceEstimator :=
  first_member (strip estimatorAttributeName) FaceEstimator_.members.

Fixpoint first_slot (estimator : PyArg) (slots : list string) : result string :=
  match slots with
  | [] => Raise (ValueError "Bad estimator")
  | estimatorName :: rest =>
      if estimatorName =? "_faceEngine" then first_slot estimator rest
      else
        match attr_name estimator with
        | Raise e => Raise e
        | Ok n =>
            if Py.lower n =? strip estimatorName then Ok estimatorName
            else first_slot estimator rest
        end
  end.

Definition _getAttributeNameByEstimator (estimator : PyArg) : result string :=
  first_slot estimator __slots__.

(** ** The engine, the handles and the collection object *)

(** Modelled from the spec: the engine ([VLFaceEngine], imported from
    [.faceengine.engine]) is a capability set with one factory operation per
    estimator and one for the warper; an operation takes no argument and
    either returns an opaque handle or fails with an error of the engine's
    own.  An engine is an identity and a behaviour that says, for a factory
    operation and the number of factory calls made so far, whether the call
    fails. *)
Record VLFaceEngine : Type := mkEngine {
  engine_id : nat;
  engine_fails : Factory -> nat -> bool
}.

(** A handle is either the object returned by a factory call, identified by
    the engine, the operation and the position of the call in the log, or an
    object of the caller's own. *)
Inductive Handle : Type :=
| Created (engine : nat) (f : Factory) (call : nat)
| Custom (n : nat).

(** One field per entry of [__slots__], in the same order; a handle slot
    holds [None] or a handle. *)
Record FaceEstimatorsCollection : Type := mkCollection {
  _headPoseEstimator : option Handle;
  _eyeEstimator : option Handle;
  _gazeDirectionEstimator : option Handle;
  _mouthStateEstimator : option Handle;
  _warpQualityEstimator : option Handle;
  _basicAttributesEstimator : option Handle;
  _emotionsEstimator : option Handle;
  _faceEngine : VLFaceEngine;
  _AGSEstimator : option Handle;
  warper : option Handle;
  _descriptorEstimator : option Handle
}.

Definition upd_headPoseEstimator v c :=
  let '(mkCollection _ b c3 d e f g h i j k) := c in mkCollection v b c3 d e f g h i j k.
Definition upd_eyeEstimator v c :=
  let '(mkCollection a _ c3 d e f g h i j k) := c in mkCollection a v c3 d e f g h i j k.
Definition upd_gazeDirectionEstimator v c :=
  let '(mkCollection a b _ d e f g h i j k) := c in mkCollection a b v d e f g h i j k.
Definition upd_mouthStateEstimator v c :=
  let '(mkCollection a b c3 _ e f g h i j k) := c in mkCollection a b c3 v e f g h i j k.
Definition upd_warpQualityEstimator v c :=
  let '(mkCollection a b c3 d _ f g h i j k) := c in mkCollection a b c3 d v f g h i j k.
Definition upd_basicAttributesEstimator v c :=
  let '(mkCollection a b c3 d e _ g h i j k) := c in mkCollection a b c3 d e v g h i j k.
Definition upd_emotionsEstimator v c :=
  let '(mkCollection a b c3 d e f _ h i j k) := c in mkCollection a b c3 d e f v h i j k.
Definition upd_faceEngine v c :=
  let '(mkCollection a b c3 d e f g _ i j k) := c in mkCollection a b c3 d e f g v i j k.
Definition upd_AGSEstimator v c :=
  let '(mkCollection a b c3 d e f g h _ j k) := c in mkCollection a b c3 d e f g h v j k.
Definition upd_warper v c :=
  let '(mkCollection a b c3 d e f g h i _ k) := c in mkCollection a b c3 d e f g h i v k.
Definition upd_descriptorEstimator v c :=
  let '(mkCollection a b c3 d e f g h i j _) := c in mkCollection a b c3 d e f g h i j v.

(** The state a method runs in: the log of the factory calls made so far on
    any engine (the latest first) and the collection object. *)
Record State : Type := mkState {
  calls : list (nat * Factory);
  self : FaceEstimatorsCollection
}.

(** ** Methods as state transformers with exceptions *)

Definition M (A : Type) : Type := State -> State * result A.

Definition ret {A} (a : A) : M A := fun st => (st, Ok a).

Definition raise {A} (e : Exception) : M A := fun st => (st, Raise e).

Definition bind {A B} (m : M A) (k : A -> M B) : M B :=
  fun st =>
    match m st with
    | (st', Ok a) => k a st'
    | (st', Raise e) => (st', Raise e)
    end.

Declare Scope py_scope.
Delimit Scope py_scope with py.
Notation "x <- m ;; k" := (bind m (fun x => k))
  (at level 61, m at next level, right associativity) : py_scope.
Notation "m ;;; k" := (bind m (fun _ => k))
  (at level 61, right associativity) : py_scope.
Local Open Scope py_scope.

Definition lift {A} (r : result A) : M A := fun st => (st, r).

(** [self.x] *)
Definition load {A} (field : FaceEstimatorsCollection -> A) : M A :=
  fun st => (st, Ok (field (self st))).

(** [self.x = v] *)
Definition store {A}
  (upd : A -> FaceEstimatorsCollection -> FaceEstimatorsCollection) (v : A)
  : M unit :=
  fun st => (mkState (calls st) (upd v (self st)), Ok tt).

(** [self._faceEngine.f()]: the call is logged, then the engine either
    fails or returns the handle of this call. *)
Definition create (f : Factory) : M Handle :=
  fun st =>
    let engine := _faceEngine (self st) in
    let n := length (calls st) in
    let st' := mkState ((engine_id engine, f) :: calls st) (self st) in
    if engine_fails engine f n
    then (st', Raise (EngineError (engine_id engine) f n))
    else (st', Ok (Created (engine_id engine) f n)).

(** ** [initEstimator] *)

Definition initEstimator (estimator : PyArg) : M unit :=
  if py_eq estimator BasicAttributes then
    h <- create createBasicAttributesEstimator ;;
    store upd_basicAttributesEstimator (Some h)
  else if py_eq estimator Eye then
    h <- create createEyeEstimator ;;
    store upd_eyeEstimator (Some h)
  else if py_eq estimator Emotions then
    h <- create createEmotionEstimator ;;
    store upd_emotionsEstimator (Some h)
  else if py_eq estimator GazeDirection then
    h <- create createGazeEstimator ;;
    store upd_gazeDirectionEstimator (Some h)
  else if py_eq estimator MouthState then
    h <- create createMouthEstimator ;;
    store upd_mouthStateEstimator (Some h)
  else if py_eq estimator WarpQuality then
    h <- create createWarpQualityEstimator ;;
    store upd_warpQualityEstimator (Some h)
  else if py_eq estimator HeadPose then
    h <- create createHeadPoseEstimator ;;
    store upd_headPoseEstimator (Some h)
  else if py_eq estimator AGS then
    h <- create createAGSEstimator ;;
    store upd_AGSEstimator (Some h)
  else if py_eq estimator Descriptor then
    h <- create createFaceDescriptorEstimator ;;
    store upd_descriptorEstimator (Some h)
  else raise (ValueError "Bad estimator type").

(** ** The lazy properties *)

(** The body shared by the nine getters:
    [if self._x is None: self._x = self._faceEngine.f()] and then
    [return self._x]. *)
Definition lazy_property
  (field : FaceEstimatorsCollection -> option Handle)
  (upd : option Handle -> FaceEstimatorsCollection -> FaceEstimatorsCollection)
  (f : Factory) : M (option Handle) :=
  v <- load field ;;
  match v with
  | None => h <- create f ;; store upd (Some h)
  | Some _ => ret tt
  end ;;;
  load field.

Definition descriptorEstimator : M (option Handle) :=
  lazy_property _descriptorEstimator upd_descriptorEstimator
    createFaceDescriptorEstimator.

Definition headPoseEstimator : M (option Handle) :=
  lazy_property _headPoseEstimator upd_headPoseEstimator
    createHeadPoseEstimator.

Definition AGSEstimator : M (option Handle) :=
  lazy_property _AGSEstimator upd_AGSEstimator createAGSEstimator.

Definition basicAttributesEstimator : M (option Handle) :=
  lazy_property _basicAttributesEstimator upd_basicAttributesEstimator
    createBasicAttributesEstimator.

Definition eyeEstimator : M (option Handle) :=
  lazy_property _eyeEstimator upd_eyeEstimator createEyeEstimator.

Definition emotionsEstimator : M (option Handle) :=
  lazy_property _emotionsEstimator upd_emotionsEstimator
    createEmotionEstimator.

Definition gazeDirectionEstimator : M (option Handle) :=
  lazy_property _gazeDirectionEstimator upd_gazeDirectionEstimator
    createGazeEstimator.

Definition mouthStateEstimator : M (option Handle) :=
  lazy_property _mouthStateEstimator upd_mouthStateEstimator
    createMouthEstimator.

Definition warpQualityEstimator : M (option Handle) :=
  lazy_property _warpQualityEstimator upd_warpQualityEstimator
    createWarpQualityEstimator.

(** The setters: [self._x = newEstimator], whatever [newEstimator] is.
    There is none for the descriptor estimator. *)
Definition set_headPoseEstimator (newEstimator : option Handle) : M unit :=
  store upd_headPoseEstimator newEstimator.

Definition set_AGSEstimator (newEstimator : option Handle) : M unit :=
  store upd_AGSEstimator newEstimator.

Definition set_basicAttributesEstimator (newEstimator : option Handle) : M unit :=
  store upd_basicAttributesEstimator newEstimator.

Definition set_eyeEstimator (newEstimator : option Handle) : M unit :=
  store upd_eyeEstimator newEstimator.

Definition set_emotionsEstimator (newEstimator : option Handle) : M unit :=
  store upd_emotionsEstimator newEstimator.

Definition set_gazeDirectionEstimator (newEstimator : option Handle) : M unit :=
  store upd_gazeDirectionEstimator newEstimator.

Definition set_mouthStateEstimator (newEstimator : option Handle) : M unit :=
  store upd_mouthStateEstimator newEstimator.

Definition set_warpQualityEstimator (newEstimator : option Handle) : M unit :=
  store upd_warpQualityEstimator newEstimator.

(** ** Attribute access by name, the [faceEngine] property and removal *)

(** The value of an attribute: the engine, or what a handle slot holds. *)
Inductive PyObject : Type :=
| EngineObject (engine : VLFaceEngine)
| SlotValue (v : option Handle).

(** [v is not None] *)
Definition is_not_None (v : PyObject) : bool :=
  match v with
  | EngineObject _ => true
  | SlotValue (Some _) => true
  | SlotValue None => false
  end.

(** [getattr(self, name)]; a name outside [__slots__] is an
    [AttributeError]. *)
Definition getattr (name : string) : M PyObject :=
  if name =? "_headPoseEstimator" then
    v <- load _headPoseEstimator ;; ret (SlotValue v)
  else if name =? "_eyeEstimator" then
    v <- load _eyeEstimator ;; ret (SlotValue v)
  else if name =? "_gazeDirectionEstimator" then
    v <- load _gazeDirectionEstimator ;; ret (SlotValue v)
  else if name =? "_mouthStateEstimator" then
    v <- load _mouthStateEstimator ;; ret (SlotValue v)
  else if name =? "_warpQualityEstimator" then
    v <- load _warpQualityEstimator ;; ret (SlotValue v)
  else if name =? "_basicAttributesEstimator" then
    v <- load _basicAttributesEstimator ;; ret (SlotValue v)
  else if name =? "_emotionsEstimator" then
    v <- load _emotionsEstimator ;; ret (SlotValue v)
  else if name =? "_faceEngine" then
    v <- load _faceEngine ;; ret (EngineObject v)
  else if name =? "_AGSEstimator" then
    v <- load _AGSEstimator ;; ret (SlotValue v)
  else if name =? "warper" then
    v <- load warper ;; ret (SlotValue v)
  else if name =? "_descriptorEstimator" then
    v <- load _descriptorEstimator ;; ret (SlotValue v)
  else raise (AttributeError name).

(** [setattr(self, name, v)] for a handle slot.  The module calls it only
    with [None] and with a name returned by [_getAttributeNameByEstimator],
    which skips [_faceEngine]; the record keeps an engine in that field, so
    the name is refused here like a name outside [__slots__]. *)
Definition setattr (name : string) (v : option Handle) : M unit :=
  if name =? "_headPoseEstimator" then store upd_headPoseEstimator v
  else if name =? "_eyeEstimator" then store upd_eyeEstimator v
  else if name =? "_gazeDirectionEstimator" then store upd_gazeDirectionEstimator v
  else if name =? "_mouthStateEstimator" then store upd_mouthStateEstimator v
  else if name =? "_warpQualityEstimator" then store upd_warpQualityEstimator v
  else if name =? "_basicAttributesEstimator" then store upd_basicAttributesEstimator v
  else if name =? "_emotionsEstimator" then store upd_emotionsEstimator v
  else if name =? "_AGSEstimator" then store upd_AGSEstimator v
  else if name =? "warper" then store upd_warper v
  else if name =? "_descriptorEstimator" then store upd_descriptorEstimator v
  else raise (AttributeError name).

(** The getter of [faceEngine]. *)
Definition faceEngine : M VLFaceEngine := load _faceEngine.

(** The loop of the [faceEngine] setter over [self.__slots__]. *)
Fixpoint reinit_slots (slots : list string) : M unit :=
  match slots with
  | [] => ret tt
  | estimatorName :: rest =>
      if estimatorName =? "_faceEngine" then reinit_slots rest
      else
        v <- getattr estimatorName ;;
        (if is_not_None v then
           estimator <- lift (_getEstimatorByAttributeName estimatorName) ;;
           initEstimator (Member estimator)
         else ret tt) ;;;
        reinit_slots rest
  end.

(** The setter of [faceEngine]. *)
Definition set_faceEngine (newFaceEngine : VLFaceEngine) : M unit :=
  store upd_faceEngine newFaceEngine ;;;
  reinit_slots __slots__ ;;;
  w <- create createFaceWarper ;;
  store upd_warper (Some w).

Definition removeEstimator (estimator : PyArg) : M unit :=
  estimatorName <- lift (_getAttributeNameByEstimator estimator) ;;
  setattr estimatorName None.

(** ** The constructor *)

(** The object before [__init__] has assigned anything but the engine. *)
Definition blank (engine : VLFaceEngine) : FaceEstimatorsCollection :=
  mkCollection None None None None None None None engine None None None.

Fixpoint for_each {A} (xs : list A) (body : A -> M unit) : M unit :=
  match xs with
  | [] => ret tt
  | x :: rest => body x ;;; for_each rest body
  end.

(** [if startEstimators:] is false for [None] and for the empty list. *)
Definition truthy {A} (l : option (list A)) : bool :=
  match l with
  | None | Some [] => false
  | Some (_ :: _) => true
  end.

(** [__init__].  Two things come from outside the module and are arguments
    here: [py_set], the order in which [set(startEstimators)] is iterated
    (Python fixes no order for a set), and [default_engine], the engine
    that [VLFaceEngine()] builds when none is passed.  The transformer runs
    from the call log alone; the [self] of the state it returns is the new
    object, which the caller gets only when no exception was raised. *)
Definition __init__
  (py_set : list FaceEstimator -> list FaceEstimator)
  (default_engine : VLFaceEngine)
  (startEstimators : option (list FaceEstimator))
  (faceEngine : option VLFaceEngine)
  (log : list (nat * Factory)) : State * result unit :=
  let engine :=
    match faceEngine with
    | None => default_engine
    | Some e => e
    end in
  (store upd_basicAttributesEstimator None ;;;
   store upd_eyeEstimator None ;;;
   store upd_emotionsEstimator None ;;;
   store upd_gazeDirectionEstimator None ;;;
   store upd_mouthStateEstimator None ;;;
   store upd_warpQualityEstimator None ;;;
   store upd_headPoseEstimator None ;;;
   store upd_AGSEstimator None ;;;
   store upd_descriptorEstimator None ;;;
   w <- create createFaceWarper ;;
   store upd_warper (Some w) ;;;
   if truthy startEstimators then
     for_each (py_set (match startEstimators with Some l => l | None => [] end))
       (fun estimator => initEstimator (Member estimator))
   else ret tt)
    (mkState log (blank engine)).

(** What [set(l)] may be iterated as: each element of [l] once, in some
    order. *)
Definition set_order (py_set : list FaceEstimator -> list FaceEstimator) : Prop :=
  forall l, NoDup (py_set l) /\ forall x, In x (py_set l) <-> In x l.

(** ** Tags, slots and properties *)

(** The slot, the factory operation, the getter and the setter that the
    class pairs with each tag (the attribute list of the class docstring and
    the branches of [initEstimator]). *)
Definition slot (t : FaceEstimator) : FaceEstimatorsCollection -> option Handle :=
  match t with
  | HeadPose => _headPoseEstimator
  | Eye => _eyeEstimator
  | Emotions => _emotionsEstimator
  | BasicAttributes => _basicAttributesEstimator
  | GazeDirection => _gazeDirectionEstimator
  | MouthState => _mouthStateEstimator
  | WarpQuality => _warpQualityEstimator
  | AGS => _AGSEstimator
  | Descriptor => _descriptorEstimator
  end.

Definition factory (t : FaceEstimator) : Factory :=
  match t with
  | HeadPose => createHeadPoseEstimator
  | Eye => createEyeEstimator
  | Emotions => createEmotionEstimator
  | BasicAttributes => createBasicAttributesEstimator
  | GazeDirection => createGazeEstimator
  | MouthState => createMouthEstimator
  | WarpQuality => createWarpQualityEstimator
  | AGS => createAGSEstimator
  | Descriptor => createFaceDescriptorEstimator
  end.

Definition getter (t : FaceEstimator) : M (option Handle) :=
  match t with
  | HeadPose => headPoseEstimator
  | Eye => eyeEstimator
  | Emotions => emotionsEstimator
  | BasicAttributes => basicAttributesEstimator
  | GazeDirection => gazeDirectionEstimator
  | MouthState => mouthStateEstimator
  | WarpQuality => warpQualityEstimator
  | AGS => AGSEstimator
  | Descriptor => descriptorEstimator
  end.

Definition setter (t : FaceEstimator) : option (option Handle -> M unit) :=
  match t with
  | HeadPose => Some set_headPoseEstimator
  | Eye => Some set_eyeEstimator
  | Emotions => Some set_emotionsEstimator
  | BasicAttributes => Some set_basicAttributesEstimator
  | GazeDirection => Some set_gazeDirectionEstimator
  | MouthState => Some set_mouthStateEstimator
  | WarpQuality => Some set_warpQualityEstimator
  | AGS => Some set_AGSEstimator
  | Descriptor => None
  end.

(** The assignment to the slot of a tag. *)
Definition upd (t : FaceEstimator)
  : option Handle -> FaceEstimatorsCollection -> FaceEstimatorsCollection :=
  match t with
  | HeadPose => upd_headPoseEstimator
  | Eye => upd_eyeEstimator
  | Emotions => upd_emotionsEstimator
  | BasicAttributes => upd_basicAttributesEstimator
  | GazeDirection => upd_gazeDirectionEstimator
  | MouthState => upd_mouthStateEstimator
  | WarpQuality => upd_warpQualityEstimator
  | AGS => upd_AGSEstimator
  | Descriptor => upd_descriptorEstimator
  end.

(** [isinstance(v, FaceEstimator)] and [hasattr(v, "name")] *)
Definition is_member (v : PyArg) : bool :=
  match v with
  | Member _ => true
  | _ => false
  end.

Definition has_name (v : PyArg) : bool :=
  match v with
  | Member _ | Named _ => true
  | _ => false
  end.

(** ** Test doubles *)

(** The engine [id] whose factory operations never fail. *)
Definition reliable (id : nat) : VLFaceEngine := mkEngine id (fun _ _ => false).

(** One order for [set(l)]: the elements of [l] without their repetitions. *)
Definition first_seen : list FaceEstimator -> list FaceEstimator :=
  nodup FaceEstimator_.eq_dec.

(** A collection as the constructor leaves it: built on [engine] with the
    start list [start], from an empty call log. *)
Definition constructed (start : option (list FaceEstimator))
  (engine : VLFaceEngine) : State :=
  fst (__init__ first_seen (reliable 0) start (Some engine) []).

(** The handle slots: [__slots__] without [_faceEngine]. *)
Definition handle_slots : list string :=
  filter (fun n => negb (n =? "_faceEngine")) __slots__.

(** Entries of the call log can be told apart. *)
Definition call_eq_dec (a b : nat * Factory) : {a = b} + {a <> b}.
Proof. repeat decide equality. Defined.

(** ** Sequences of operations *)

(** What a caller can do with a collection. *)
Inductive Op : Type :=
| Init (estimator : PyArg)
| Get (t : FaceEstimator)
| Assign (t : FaceEstimator) (newEstimator : option Handle)
| Remove (estimator : PyArg)
| Rebind (newFaceEngine : VLFaceEngine).

(** Assigning to [descriptorEstimator], a property without a setter, is an
    [AttributeError]. *)
Definition perform (op : Op) : M unit :=
  match op with
  | Init estimator => initEstimator estimator
  | Get t => _ <- getter t ;; ret tt
  | Assign t newEstimator =>
      match setter t with
      | Some set => set newEstimator
      | None => raise (AttributeError "descriptorEstimator")
      end
  | Remove estimator => removeEstimator estimator
  | Rebind newFaceEngine => set_faceEngine newFaceEngine
  end.

(** The state an operation leaves, whether it returned or raised. *)
Definition after (st : State) (op : Op) : State := fst (perform op st).

Definition run (ops : list Op) (st : State) : State := fold_left after ops st.

Definition is_rebind (op : Op) : bool :=
  match op with
  | Rebind _ => true
  | _ => false
  end.

(** A handle returned by a factory call on [engine]. *)
Definition made_by (engine : VLFaceEngine) (h : Handle) : Prop :=
  exists f n, h = Created (engine_id engine) f n.

(** Every slot is empty or holds a handle made by the current engine. *)
Definition slots_current (c : FaceEstimatorsCollection) : Prop :=
  forall t h, slot t c = Some h -> made_by (_faceEngine c) h.

(** A handle that one of the operations assigned through a setter. *)
Definition supplied (ops : list Op) (h : Handle) : Prop :=
  exists t, In (Assign t (Some h)) ops.

(** Every slot is empty, or holds a handle taken from [given], or holds a
    handle that the current engine made with the factory of the slot's
    tag. *)
Definition slots_sound (given : Handle -> Prop) (st : State) : Prop :=
  forall t h,
    slot t (self st) = Some h ->
    given h \/
    exists n, h = Created (engine_id (_faceEngine (self st))) (factory t) n.


(** ** Engines that fail, typed use, and tags that resolve *)

(** A test double: the engine [id] whose factory operations fail at the
    calls numbered in [when] and return at every other call. *)
Definition failing_at (id : nat) (when : list nat) : VLFaceEngine :=
  mkEngine id (fun _ n => existsb (Nat.eqb n) when).

(** An operation used as annotated: [initEstimator] and [removeEstimator]
    are given members of the enumeration. *)
Definition typed (op : Op) : bool :=
  match op with
  | Init estimator | Remove estimator => is_member estimator
  | Get _ | Assign _ _ | Rebind _ => true
  end.

(** The tags whose slot name the lookup by name leads back to. *)
Definition resolves (t : FaceEstimator) : bool :=
  match _getAttributeNameByEstimator (Member t) with
  | Ok _ => true
  | Raise _ => false
  end.

(** The tag an operation is about. *)
Definition tag_of (op : Op) : option FaceEstimator :=
  match op with
  | Init (Member t) | Get t | Assign t _ | Remove (Member t) => Some t
  | _ => None
  end.

(** * Properties *)

(** ** Slots and their assignments *)

Lemma slot_upd_same t v c : slot t (upd t v c) = v.
Proof. destruct t, c; reflexivity. Qed.

Lemma slot_upd_other t t' v c : t <> t' -> slot t' (upd t v c) = slot t' c.
Proof. destruct t, t', c; intros H; try reflexivity; contradiction H; reflexivity. Qed.

Lemma faceEngine_upd t v c : _faceEngine (upd t v c) = _faceEngine c.
Proof. destruct t, c; reflexivity. Qed.

Lemma warper_upd t v c : warper (upd t v c) = warper c.
Proof. destruct t, c; reflexivity. Qed.

(** ** The methods, tag by tag *)

Lemma initEstimator_Member t :
  initEstimator (Member t) =
  (h <- create (factory t) ;; store (upd t) (Some h)).
Proof. destruct t; reflexivity. Qed.

Lemma getter_lazy t : getter t = lazy_property (slot t) (upd t) (factory t).
Proof. destruct t; reflexivity. Qed.

Lemma setter_store t set :
  setter t = Some set -> set = store (upd t).
Proof. destruct t; simpl; intros H; inversion H; reflexivity. Qed.

Lemma initEstimator_unknown v st :
  is_member v = false ->
  initEstimator v st = (st, Raise (ValueError "Bad estimator type")).
Proof. destruct v; simpl; intros H; try discriminate H; reflexivity. Qed.

Lemma create_returns f st :
  engine_fails (_faceEngine (self st)) f (length (calls st)) = false ->
  create f st =
  (mkState ((engine_id (_faceEngine (self st)), f) :: calls st) (self st),
   Ok (Created (engine_id (_faceEngine (self st))) f (length (calls st)))).
Proof. intros H; unfold create; rewrite H; reflexivity. Qed.

Lemma create_fails f st :
  engine_fails (_faceEngine (self st)) f (length (calls st)) = true ->
  create f st =
  (mkState ((engine_id (_faceEngine (self st)), f) :: calls st) (self st),
   Raise (EngineError (engine_id (_faceEngine (self st))) f (length (calls st)))).
Proof. intros H; unfold create; rewrite H; reflexivity. Qed.

(** [initEstimator] on a tag, when the engine returns: one call, and the
    slot of the tag holds the handle of that call. *)
Lemma initEstimator_returns t st :
  engine_fails (_faceEngine (self st)) (factory t) (length (calls st)) = false ->
  initEstimator (Member t) st =
  (mkState ((engine_id (_faceEngine (self st)), factory t) :: calls st)
     (upd t (Some (Created (engine_id (_faceEngine (self st))) (factory t)
                     (length (calls st)))) (self st)),
   Ok tt).
Proof.
  intros H. rewrite initEstimator_Member. unfold bind.
  rewrite (create_returns _ _ H). reflexivity.
Qed.

(** The lazy getter on a slot that holds a handle: no call, no change. *)
Lemma getter_cached t h st :
  slot t (self st) = Some h -> getter t st = (st, Ok (Some h)).
Proof.
  intros H. rewrite getter_lazy. unfold lazy_property, bind, load, ret.
  cbv beta iota. rewrite H. cbv beta iota. rewrite H. reflexivity.
Qed.

(** The lazy getter on an empty slot, when the engine returns. *)
Lemma getter_empty t st :
  slot t (self st) = None ->
  engine_fails (_faceEngine (self st)) (factory t) (length (calls st)) = false ->
  getter t st =
  (mkState ((engine_id (_faceEngine (self st)), factory t) :: calls st)
     (upd t (Some (Created (engine_id (_faceEngine (self st))) (factory t)
                     (length (calls st)))) (self st)),
   Ok (Some (Created (engine_id (_faceEngine (self st))) (factory t)
               (length (calls st))))).
Proof.
  intros Hs Hf. rewrite getter_lazy. unfold lazy_property, bind, load.
  cbv beta iota. rewrite Hs. rewrite (create_returns _ _ Hf). unfold store.
  cbn [self calls]. rewrite slot_upd_same. reflexivity.
Qed.

(** The lazy getter on an empty slot, when the engine fails: the error of
    the engine reaches the caller and the slot stays empty. *)
Lemma getter_engine_error t st :
  slot t (self st) = None ->
  engine_fails (_faceEngine (self st)) (factory t) (length (calls st)) = true ->
  getter t st =
  (mkState ((engine_id (_faceEngine (self st)), factory t) :: calls st) (self st),
   Raise (EngineError (engine_id (_faceEngine (self st))) (factory t)
            (length (calls st)))).
Proof.
  intros Hs Hf. rewrite getter_lazy. unfold lazy_property, bind, load.
  cbv beta iota. rewrite Hs. rewrite (create_fails _ _ Hf). reflexivity.
Qed.

(** ** Lazy getters, [initEstimator] and the setters *)

(** C5.  For each of the nine tags, two lazy gets in a row return the same
    handle: the first one calls the factory of the tag once when the slot is
    empty and not at all when it holds a handle, and the second one returns
    the cached handle and leaves the state, so also the call log, as it is.
    The engine is assumed to return when it is called. *)
Theorem lazy_get_twice (t : FaceEstimator) (st : State) :
  (slot t (self st) = None ->
   engine_fails (_faceEngine (self st)) (factory t) (length (calls st)) = false) ->
  exists h st1,
    getter t st = (st1, Ok (Some h)) /\
    getter t st1 = (st1, Ok (Some h)) /\
    calls st1 =
      match slot t (self st) with
      | Some _ => calls st
      | None => (engine_id (_faceEngine (self st)), factory t) :: calls st
      end.
Proof.
  intros Hengine. destruct (slot t (self st)) as [h|] eqn:Hslot.
  - exists h, st. rewrite (getter_cached _ _ _ Hslot). auto.
  - specialize (Hengine eq_refl).
    eexists; eexists. rewrite (getter_empty _ _ Hslot Hengine).
    split; [reflexivity|]. split; [|reflexivity].
    apply getter_cached. cbn [self]. apply slot_upd_same.
Qed.

Lemma lazy_get_twice_witness :
  (slot HeadPose (self (constructed None (reliable 1))) = None ->
   engine_fails (_faceEngine (self (constructed None (reliable 1))))
     (factory HeadPose) (length (calls (constructed None (reliable 1)))) = false) /\
  exists h st1,
    getter HeadPose (constructed None (reliable 1)) = (st1, Ok (Some h)) /\
    getter HeadPose st1 = (st1, Ok (Some h)) /\
    calls st1 =
      match slot HeadPose (self (constructed None (reliable 1))) with
      | Some _ => calls (constructed None (reliable 1))
      | None =>
          (engine_id (_faceEngine (self (constructed None (reliable 1)))),
           factory HeadPose) :: calls (constructed None (reliable 1))
      end.
Proof.
  split.
  - intros _. reflexivity.
  - apply (lazy_get_twice HeadPose (constructed None (reliable 1))).
    intros _. reflexivity.
Defined.

(** C6.  For each of the nine tags and whatever the slot holds, two calls of
    [initEstimator] in a row make two factory calls, each returning a handle
    of its own, and the slot ends with the handle of the second call.  The
    engine is assumed to return at both calls. *)
Theorem initEstimator_twice (t : FaceEstimator) (st : State) :
  engine_fails (_faceEngine (self st)) (factory t) (length (calls st)) = false ->
  engine_fails (_faceEngine (self st)) (factory t) (S (length (calls st))) = false ->
  exists st1 st2,
    initEstimator (Member t) st = (st1, Ok tt) /\
    initEstimator (Member t) st1 = (st2, Ok tt) /\
    slot t (self st1) =
      Some (Created (engine_id (_faceEngine (self st))) (factory t)
              (length (calls st))) /\
    slot t (self st2) =
      Some (Created (engine_id (_faceEngine (self st))) (factory t)
              (S (length (calls st)))) /\
    calls st2 =
      (engine_id (_faceEngine (self st)), factory t)
        :: (engine_id (_faceEngine (self st)), factory t) :: calls st.
Proof.
  intros H1 H2.
  pose proof (initEstimator_returns t st H1) as E1.
  set (st1 := mkState _ _) in E1.
  assert (Hf : engine_fails (_faceEngine (self st1)) (factory t)
                 (length (calls st1)) = false).
  { subst st1. cbn [self calls length]. rewrite faceEngine_upd. exact H2. }
  pose proof (initEstimator_returns t st1 Hf) as E2.
  exists st1. eexists. split; [exact E1|]. split; [exact E2|].
  subst st1. cbn [self calls length].
  rewrite ?faceEngine_upd, !slot_upd_same. auto.
Qed.

Lemma initEstimator_twice_witness :
  exists st1 st2,
    initEstimator (Member AGS) (constructed (Some [AGS]) (reliable 1)) = (st1, Ok tt) /\
    initEstimator (Member AGS) st1 = (st2, Ok tt) /\
    slot AGS (self st1) = Some (Created 1 createAGSEstimator 2) /\
    slot AGS (self st2) = Some (Created 1 createAGSEstimator 3) /\
    calls st2 =
      (1, createAGSEstimator) :: (1, createAGSEstimator)
        :: calls (constructed (Some [AGS]) (reliable 1)).
Proof.
  exact (initEstimator_twice AGS (constructed (Some [AGS]) (reliable 1))
           eq_refl eq_refl).
Defined.

(** C7.  For each tag that has a setter and each handle [h]: after the
    setter stored [h], the lazy get of the tag returns [h], and neither of
    the two calls the engine. *)
Theorem set_then_get (t : FaceEstimator) (set : option Handle -> M unit)
  (h : Handle) (st : State) :
  setter t = Some set ->
  exists st1,
    set (Some h) st = (st1, Ok tt) /\
    getter t st1 = (st1, Ok (Some h)) /\
    calls st1 = calls st.
Proof.
  intros Hset. rewrite (setter_store _ _ Hset).
  eexists. split; [reflexivity|]. split; [|reflexivity].
  apply getter_cached. cbn [self]. apply slot_upd_same.
Qed.

Lemma set_then_get_witness :
  setter MouthState = Some set_mouthStateEstimator /\
  exists st1,
    set_mouthStateEstimator (Some (Custom 7)) (constructed None (reliable 1))
      = (st1, Ok tt) /\
    getter MouthState st1 = (st1, Ok (Some (Custom 7))) /\
    calls st1 = calls (constructed None (reliable 1)).
Proof.
  split.
  - reflexivity.
  - exact (set_then_get MouthState set_mouthStateEstimator (Custom 7)
             (constructed None (reliable 1)) eq_refl).
Defined.

(** C10.  For each tag that has a setter, the setter takes [None] without
    an error and leaves the slot empty and the call log as it was; the next
    lazy get then calls the factory of the tag once, caches the new handle
    and returns it.  The engine is assumed to return when it is called. *)
Theorem set_None_then_get (t : FaceEstimator) (set : option Handle -> M unit)
  (st : State) :
  setter t = Some set ->
  engine_fails (_faceEngine (self st)) (factory t) (length (calls st)) = false ->
  exists st1 st2,
    set None st = (st1, Ok tt) /\
    slot t (self st1) = None /\
    calls st1 = calls st /\
    getter t st1 =
      (st2, Ok (Some (Created (engine_id (_faceEngine (self st))) (factory t)
                        (length (calls st))))) /\
    slot t (self st2) =
      Some (Created (engine_id (_faceEngine (self st))) (factory t)
              (length (calls st))) /\
    calls st2 = (engine_id (_faceEngine (self st)), factory t) :: calls st.
Proof.
  intros Hset Hengine. rewrite (setter_store _ _ Hset).
  set (st1 := mkState (calls st) (upd t None (self st))).
  assert (Hs : slot t (self st1) = None) by apply slot_upd_same.
  assert (Hf : engine_fails (_faceEngine (self st1)) (factory t)
                 (length (calls st1)) = false).
  { subst st1. cbn [self calls]. rewrite faceEngine_upd. exact Hengine. }
  pose proof (getter_empty t st1 Hs Hf) as E.
  exists st1. eexists. split; [reflexivity|].
  split; [exact Hs|]. split; [reflexivity|].
  subst st1. cbn [self calls] in *. rewrite faceEngine_upd in E.
  split; [exact E|]. cbn [self calls]. rewrite slot_upd_same. auto.
Qed.

Lemma set_None_then_get_witness :
  setter Eye = Some set_eyeEstimator /\
  exists st1 st2,
    set_eyeEstimator None (constructed (Some [Eye]) (reliable 1)) = (st1, Ok tt) /\
    slot Eye (self st1) = None /\
    calls st1 = calls (constructed (Some [Eye]) (reliable 1)) /\
    getter Eye st1 = (st2, Ok (Some (Created 1 createEyeEstimator 2))) /\
    slot Eye (self st2) = Some (Created 1 createEyeEstimator 2) /\
    calls st2 =
      (1, createEyeEstimator) :: calls (constructed (Some [Eye]) (reliable 1)).
Proof.
  split.
  - reflexivity.
  - exact (set_None_then_get Eye set_eyeEstimator
             (constructed (Some [Eye]) (reliable 1)) eq_refl eq_refl).
Defined.

(** ** The two lookups *)

(** A name returned for an estimator is a handle slot, never
    [_faceEngine]. *)
Lemma getAttributeName_handle_slot v n :
  _getAttributeNameByEstimator v = Ok n -> In n handle_slots.
Proof.
  unfold _getAttributeNameByEstimator, __slots__.
  cbn [first_slot String.eqb Ascii.eqb Bool.eqb].
  destruct (attr_name v) as [s|e]; [|discriminate].
  repeat match goal with
         | |- context [if ?b then _ else _] => destruct b
         end;
    intros H; inversion H; subst; vm_compute; tauto.
Qed.

(** Whenever a tag has a storage name, the name leads back to the tag. *)
Lemma lookup_round_trip t n :
  _getAttributeNameByEstimator (Member t) = Ok n ->
  _getEstimatorByAttributeName n = Ok t.
Proof.
  destruct t; vm_compute; intros H; inversion H; reflexivity.
Qed.

(** The tags that do have a storage name. *)
Lemma getAttributeName_found :
  _getAttributeNameByEstimator (Member Eye) = Ok "_eyeEstimator" /\
  _getAttributeNameByEstimator (Member Emotions) = Ok "_emotionsEstimator" /\
  _getAttributeNameByEstimator (Member Descriptor) = Ok "_descriptorEstimator".
Proof. repeat split. Qed.

(** C2.  The lookups are not inverse bijections over the nine tags: the
    lowercased name of a tag is compared with a slot name whose capitals are
    kept, so the six tags with a capital inside their name have no storage
    name ([_getAttributeNameByEstimator] raises [ValueError]), and the slot
    names of these six lead to no tag ([_getEstimatorByAttributeName] raises
    [ValueError]). *)
Theorem lookups_miss_capitalised_tags :
  Forall (fun t => _getAttributeNameByEstimator (Member t)
                   = Raise (ValueError "Bad estimator"))
    [HeadPose; BasicAttributes; GazeDirection; MouthState; WarpQuality; AGS] /\
  Forall (fun n => _getEstimatorByAttributeName n
                   = Raise (ValueError "Bad attribute name"))
    ["_headPoseEstimator"; "_basicAttributesEstimator";
     "_gazeDirectionEstimator"; "_mouthStateEstimator";
     "_warpQualityEstimator"; "_AGSEstimator"].
Proof. split; repeat constructor. Qed.

(** ** [removeEstimator] *)

(** C3.  [removeEstimator] does not clear the slot of every tag: for the six
    tags with a capital inside their name it raises [ValueError] and leaves
    the state, so also a handle in the slot, as it was. *)
Theorem removeEstimator_raises_on_capitalised_tags (st : State) :
  Forall (fun t => removeEstimator (Member t) st
                   = (st, Raise (ValueError "Bad estimator")))
    [HeadPose; BasicAttributes; GazeDirection; MouthState; WarpQuality; AGS].
Proof. repeat constructor. Qed.

(** For the other three tags the removal clears the slot and calls nothing. *)
Lemma removeEstimator_clears t n st :
  _getAttributeNameByEstimator (Member t) = Ok n ->
  removeEstimator (Member t) st =
  (mkState (calls st) (upd t None (self st)), Ok tt).
Proof.
  destruct t; vm_compute; intros H; inversion H; reflexivity.
Qed.

(** For these tags, and when the engine returns, the lazy get after a
    removal makes one factory call and returns its handle. *)
Lemma remove_then_get t n st :
  _getAttributeNameByEstimator (Member t) = Ok n ->
  engine_fails (_faceEngine (self st)) (factory t) (length (calls st)) = false ->
  exists st1 st2,
    removeEstimator (Member t) st = (st1, Ok tt) /\
    slot t (self st1) = None /\
    getter t st1 =
      (st2, Ok (Some (Created (engine_id (_faceEngine (self st))) (factory t)
                        (length (calls st))))) /\
    calls st2 = (engine_id (_faceEngine (self st)), factory t) :: calls st.
Proof.
  intros Hn Hengine. rewrite (removeEstimator_clears _ _ _ Hn).
  set (st1 := mkState (calls st) (upd t None (self st))).
  assert (Hs : slot t (self st1) = None) by apply slot_upd_same.
  assert (Hf : engine_fails (_faceEngine (self st1)) (factory t)
                 (length (calls st1)) = false).
  { subst st1. cbn [self calls]. rewrite faceEngine_upd. exact Hengine. }
  pose proof (getter_empty t st1 Hs Hf) as E.
  exists st1. eexists. split; [reflexivity|]. split; [exact Hs|].
  subst st1. cbn [self calls] in *. rewrite faceEngine_upd in E.
  split; [exact E|]. reflexivity.
Qed.

(** When [removeEstimator] raises, nothing was assigned. *)
Lemma removeEstimator_raise_unchanged v st st' e :
  removeEstimator v st = (st', Raise e) -> st' = st.
Proof.
  unfold removeEstimator, bind, lift.
  destruct (_getAttributeNameByEstimator v) as [n|e'] eqn:Hn.
  - apply getAttributeName_handle_slot in Hn.
    vm_compute in Hn.
    repeat (destruct Hn as [Hn|Hn]; [subst n; vm_compute; discriminate|]).
    contradiction.
  - intros H; inversion H; reflexivity.
Qed.

Lemma removeEstimator_without_name v st :
  has_name v = false ->
  removeEstimator v st = (st, Raise (AttributeError "name")).
Proof. destruct v; simpl; intros H; try discriminate H; reflexivity. Qed.

(** ** The [faceEngine] setter *)

(** The loop stops with [ValueError] at the first handle slot that is not
    [None] and whose name leads to no tag. *)
Lemma reinit_slots_unresolved n rest st v e :
  (n =? "_faceEngine") = false ->
  getattr n st = (st, Ok v) ->
  is_not_None v = true ->
  _getEstimatorByAttributeName n = Raise e ->
  reinit_slots (n :: rest) st = (st, Raise e).
Proof.
  intros Hn Hget Hv Hname. cbn [reinit_slots]. rewrite Hn.
  unfold bind. rewrite Hget, Hv. unfold lift. rewrite Hname. reflexivity.
Qed.

(** The loop never gets past a warper that is not [None]: [warper] is in
    [__slots__], and its name leads to no tag. *)
Lemma reinit_slots_warper rest st h :
  warper (self st) = Some h ->
  reinit_slots ("warper" :: rest) st
  = (st, Raise (ValueError "Bad attribute name")).
Proof.
  intros Hw. apply reinit_slots_unresolved with (v := SlotValue (Some h));
    try reflexivity.
  unfold getattr. cbn [String.eqb Ascii.eqb Bool.eqb]. unfold bind, load, ret.
  rewrite Hw. reflexivity.
Qed.

(** Running the loop, to its end or to an exception, leaves the warper as
    it was. *)
Lemma reinit_slots_keeps_warper slots st st' r :
  reinit_slots slots st = (st', r) -> warper (self st') = warper (self st).
Proof.
  revert st st' r. induction slots as [|n rest IH]; intros st st' r.
  - cbn. intros H; inversion H; reflexivity.
  - cbn [reinit_slots]. destruct (n =? "_faceEngine"); [apply IH|].
    unfold bind.
    destruct (getattr n st) as [st1 [v|e]] eqn:Hget.
    + assert (st1 = st) as ->.
      { revert Hget. unfold getattr, bind, load, ret, raise.
        repeat match goal with
               | |- context [if ?b then _ else _] => destruct b
               end; intros H; inversion H; reflexivity. }
      destruct (is_not_None v).
      * unfold lift.
        destruct (_getEstimatorByAttributeName n) as [t|e].
        -- rewrite initEstimator_Member. unfold bind, create, store.
           destruct (engine_fails _ _ _).
           ++ intros H; inversion H; reflexivity.
           ++ cbn [self calls]. intros H. apply IH in H. rewrite H.
              cbn [self]. apply warper_upd.
        -- intros H; inversion H; reflexivity.
      * apply IH.
    + revert Hget. unfold getattr, bind, load, ret, raise.
      repeat match goal with
             | |- context [if ?b then _ else _] => destruct b
             end; intros H; inversion H; subst;
        intros H'; inversion H'; reflexivity.
Qed.

Lemma reinit_slots_app_raise slots1 slots2 st st1 e :
  reinit_slots slots1 st = (st1, Raise e) ->
  reinit_slots (slots1 ++ slots2)%list st = (st1, Raise e).
Proof.
  revert st. induction slots1 as [|n rest IH]; intros st.
  - cbn. discriminate.
  - cbn [reinit_slots app]. destruct (n =? "_faceEngine"); [apply IH|].
    unfold bind. destruct (getattr n st) as [st2 [v|e2]]; [|auto].
    destruct (if is_not_None v then _ else _) as [st3 [[]|e3]]; [apply IH|auto].
Qed.

Lemma reinit_slots_app_ok slots1 slots2 st st1 :
  reinit_slots slots1 st = (st1, Ok tt) ->
  reinit_slots (slots1 ++ slots2)%list st = reinit_slots slots2 st1.
Proof.
  revert st. induction slots1 as [|n rest IH]; intros st.
  - cbn. intros H; inversion H; reflexivity.
  - cbn [reinit_slots app]. destruct (n =? "_faceEngine"); [apply IH|].
    unfold bind. destruct (getattr n st) as [st2 [v|e2]]; [|discriminate].
    destruct (if is_not_None v then _ else _) as [st3 [[]|e3]];
      [apply IH|discriminate].
Qed.

(** From a state whose warper is not [None], as every constructed
    collection has it, assigning an engine never returns: it raises, with the
    registry's own [ValueError] unless an error of the engine came first. *)
Lemma set_faceEngine_raises newFaceEngine st h :
  warper (self st) = Some h ->
  exists st' e, set_faceEngine newFaceEngine st = (st', Raise e).
Proof.
  intros Hw. unfold set_faceEngine. unfold bind at 1. unfold store at 1.
  set (st0 := mkState _ _).
  assert (Hw0 : warper (self st0) = Some h).
  { subst st0. cbn [self]. destruct st as [log []]. exact Hw. }
  clearbody st0. unfold bind at 1.
  change __slots__ with
    (["_headPoseEstimator"; "_eyeEstimator"; "_gazeDirectionEstimator";
      "_mouthStateEstimator"; "_warpQualityEstimator";
      "_basicAttributesEstimator"; "_emotionsEstimator"; "_faceEngine";
      "_AGSEstimator"] ++ ["warper"; "_descriptorEstimator"])%list.
  destruct (reinit_slots _ st0) as [st1 [[]|e]] eqn:Hloop.
  - destruct (reinit_slots
                ["_headPoseEstimator"; "_eyeEstimator";
                 "_gazeDirectionEstimator"; "_mouthStateEstimator";
                 "_warpQualityEstimator"; "_basicAttributesEstimator";
                 "_emotionsEstimator"; "_faceEngine"; "_AGSEstimator"] st0)
      as [st2 [[]|e]] eqn:Hfirst.
    + rewrite (reinit_slots_app_ok _ _ _ _ Hfirst) in Hloop.
      apply reinit_slots_keeps_warper in Hfirst.
      rewrite Hw0 in Hfirst.
      rewrite (reinit_slots_warper _ _ _ Hfirst) in Hloop. discriminate.
    + rewrite (reinit_slots_app_raise _ _ _ _ _ Hfirst) in Hloop. discriminate.
  - eauto.
Qed.

(** C1.  Assigning an engine to a constructed collection does not complete.
    On a collection built on engine 1 with the eye and the descriptor
    estimators, assigning engine 2 stores the new engine, re-creates the eye
    estimator, and then raises [ValueError] at the slot [warper]: the
    descriptor estimator and the warper are still those of engine 1, and the
    warper factory of engine 2 was never called.  On a collection with no
    estimator at all it raises the same error. *)
Theorem set_faceEngine_raises_on_constructed :
  (exists st',
     set_faceEngine (reliable 2) (constructed (Some [Eye; Descriptor]) (reliable 1))
       = (st', Raise (ValueError "Bad attribute name")) /\
     engine_id (_faceEngine (self st')) = 2 /\
     _eyeEstimator (self st') = Some (Created 2 createEyeEstimator 3) /\
     _descriptorEstimator (self st')
       = Some (Created 1 createFaceDescriptorEstimator 2) /\
     warper (self st') = Some (Created 1 createFaceWarper 0) /\
     calls st' =
       [(2, createEyeEstimator); (1, createFaceDescriptorEstimator);
        (1, createEyeEstimator); (1, createFaceWarper)]) /\
  snd (set_faceEngine (reliable 2) (constructed None (reliable 1)))
    = Raise (ValueError "Bad attribute name").
Proof.
  split; [|reflexivity].
  eexists. split; [vm_compute; reflexivity|]. repeat split.
Qed.

(** ** Values that are no tag *)

(** C8, as stated, fails: on the integer 10, which is no member of the
    enumeration, [removeEstimator] does not raise [ValueError]; the error is
    the [AttributeError] of reading [estimator.name]. *)
Lemma removeEstimator_int_is_not_ValueError :
  is_member (PyInt 10) = false /\
  (forall msg,
     snd (removeEstimator (PyInt 10) (constructed None (reliable 1)))
     <> Raise (ValueError msg)) /\
  removeEstimator (PyInt 10) (constructed None (reliable 1))
    = (constructed None (reliable 1), Raise (AttributeError "name")).
Proof.
  split; [reflexivity|]. split; [|reflexivity].
  intros msg. vm_compute. discriminate.
Qed.

(** C8, amended.  For every value that is no member of the enumeration,
    [initEstimator] raises [ValueError] and leaves the slots, the warper,
    the engine and the call log as they were; [removeEstimator] raises
    [AttributeError] when the value has no [name] attribute, and whenever it
    raises it leaves everything as it was. *)
Theorem unknown_tag_leaves_state (v : PyArg) (st : State) :
  is_member v = false ->
  initEstimator v st = (st, Raise (ValueError "Bad estimator type")) /\
  (has_name v = false ->
   removeEstimator v st = (st, Raise (AttributeError "name"))) /\
  (forall st' e, removeEstimator v st = (st', Raise e) -> st' = st).
Proof.
  intros Hv. split; [apply initEstimator_unknown; exact Hv|]. split.
  - apply removeEstimator_without_name.
  - intros st' e. apply removeEstimator_raise_unchanged.
Qed.

Lemma unknown_tag_leaves_state_witness :
  is_member (PyInt 10) = false /\
  has_name (PyInt 10) = false /\
  initEstimator (PyInt 10) (constructed (Some [Eye]) (reliable 1))
    = (constructed (Some [Eye]) (reliable 1),
       Raise (ValueError "Bad estimator type")) /\
  removeEstimator (PyInt 10) (constructed (Some [Eye]) (reliable 1))
    = (constructed (Some [Eye]) (reliable 1), Raise (AttributeError "name")).
Proof.
  split; [reflexivity|]. split; [reflexivity|].
  destruct (unknown_tag_leaves_state (PyInt 10)
              (constructed (Some [Eye]) (reliable 1)) eq_refl)
    as [Hinit [Hremove _]].
  split; [exact Hinit|exact (Hremove eq_refl)].
Defined.

(** ** The constructor *)

(** The factory operations of two tags differ, and none of them is the one
    of the warper. *)
Lemma factory_injective t t' : factory t = factory t' -> t = t'.
Proof. destruct t, t'; simpl; intros H; try discriminate H; reflexivity. Qed.

Lemma factory_not_warper t : factory t <> createFaceWarper.
Proof. destruct t; discriminate. Qed.

(** Distinct tags give distinct calls. *)
Lemma NoDup_calls (id : nat) (l : list FaceEstimator) :
  NoDup l -> NoDup (map (fun t => (id, factory t)) l).
Proof.
  induction 1 as [|x l Hx Hl IH]; cbn [map]; constructor; [|exact IH].
  rewrite in_map_iff. intros (y & E & Hy). inversion E as [Hf].
  apply factory_injective in Hf. subst y. exact (Hx Hy).
Qed.

(** The loop of the constructor on an engine that never fails: one factory
    call per element in the order of the list, the slots of the elements
    filled, every other slot, the warper and the engine kept. *)
Lemma for_each_initEstimator l : forall st,
  (forall f n, engine_fails (_faceEngine (self st)) f n = false) ->
  exists st',
    for_each l (fun estimator => initEstimator (Member estimator)) st
      = (st', Ok tt) /\
    calls st' =
      (rev (map (fun t => (engine_id (_faceEngine (self st)), factory t)) l)
         ++ calls st)%list /\
    _faceEngine (self st') = _faceEngine (self st) /\
    warper (self st') = warper (self st) /\
    (forall t, In t l ->
       exists n, slot t (self st')
                 = Some (Created (engine_id (_faceEngine (self st))) (factory t) n)) /\
    (forall t, ~ In t l -> slot t (self st') = slot t (self st)).
Proof.
  induction l as [|x rest IH]; intros st Hengine.
  - exists st. cbn. repeat split; auto. intros t [].
  - cbn [for_each]. unfold bind.
    rewrite (initEstimator_returns x st (Hengine _ _)).
    set (st1 := mkState _ _).
    assert (He1 : _faceEngine (self st1) = _faceEngine (self st))
      by apply faceEngine_upd.
    destruct (IH st1) as (st' & Hrun & Hcalls & He & Hw & Hin & Hout).
    { intros f n. rewrite He1. apply Hengine. }
    exists st'. split; [exact Hrun|].
    rewrite He1 in *. split.
    { rewrite Hcalls. subst st1. cbn [calls map rev].
      rewrite <- app_assoc. reflexivity. }
    split; [exact He|]. split.
    { rewrite Hw. apply warper_upd. }
    split.
    + intros t Ht. destruct (in_dec FaceEstimator_.eq_dec t rest) as [Hr|Hr].
      * apply Hin, Hr.
      * destruct Ht as [->|Ht]; [|contradiction].
        rewrite (Hout _ Hr). subst st1. cbn [self].
        rewrite slot_upd_same. eauto.
    + intros t Ht. rewrite Hout by (intros Hr; apply Ht; right; exact Hr).
      subst st1. cbn [self]. apply slot_upd_other.
      intros ->. apply Ht. left. reflexivity.
Qed.

(** C9.  Whatever the start list, with its repetitions, and whatever the
    order in which its set is iterated: on an engine that does not fail, the
    constructor returns, it has called the warper factory once and the
    factory of each tag once if the tag is in the list and not at all
    otherwise, and the slots that hold a handle are those of the tags in the
    list. *)
Theorem constructor_collapses_duplicates
  (py_set : list FaceEstimator -> list FaceEstimator)
  (default_engine : VLFaceEngine)
  (startEstimators : option (list FaceEstimator))
  (faceEngine : option VLFaceEngine)
  (log : list (nat * Factory)) :
  let engine :=
    match faceEngine with
    | None => default_engine
    | Some e => e
    end in
  let start :=
    match startEstimators with
    | None => []
    | Some l => l
    end in
  set_order py_set ->
  (forall f n, engine_fails engine f n = false) ->
  exists st added,
    __init__ py_set default_engine startEstimators faceEngine log = (st, Ok tt) /\
    calls st = (added ++ log)%list /\
    count_occ call_eq_dec added (engine_id engine, createFaceWarper) = 1 /\
    (forall t,
       count_occ call_eq_dec added (engine_id engine, factory t)
       = if in_dec FaceEstimator_.eq_dec t start then 1 else 0) /\
    (forall t, slot t (self st) <> None <-> In t start).
Proof.
  intros engine start Hset Hengine.
  set (order := if truthy startEstimators then py_set start else []).
  assert (Horder : NoDup order /\ forall x, In x order <-> In x start).
  { subst order start. destruct startEstimators as [[|x l]|]; cbn [truthy].
    - split; [constructor|tauto].
    - apply Hset.
    - split; [constructor|tauto]. }
  destruct Horder as [Hnodup Hmem].
  set (st0 := mkState ((engine_id engine, createFaceWarper) :: log)
                (upd_warper (Some (Created (engine_id engine) createFaceWarper
                                     (length log))) (blank engine))).
  assert (Hstart :
    __init__ py_set default_engine startEstimators faceEngine log
    = for_each order (fun estimator => initEstimator (Member estimator)) st0).
  { unfold __init__. fold engine. unfold bind, store, create.
    cbn [self calls blank upd_basicAttributesEstimator upd_eyeEstimator
         upd_emotionsEstimator upd_gazeDirectionEstimator
         upd_mouthStateEstimator upd_warpQualityEstimator
         upd_headPoseEstimator upd_AGSEstimator upd_descriptorEstimator
         _faceEngine].
    rewrite Hengine. cbn [self calls]. subst order st0 start.
    destruct (truthy startEstimators); reflexivity. }
  destruct (for_each_initEstimator order st0)
    as (st & Hrun & Hcalls & He & Hw & Hin & Hout).
  { intros f n. apply Hengine. }
  change (_faceEngine (self st0)) with engine in *.
  exists st.
  exists (rev (map (fun t => (engine_id engine, factory t)) order)
            ++ [(engine_id engine, createFaceWarper)])%list.
  split; [rewrite Hstart; exact Hrun|]. split.
  { rewrite Hcalls. subst st0. cbn [calls]. rewrite <- app_assoc. reflexivity. }
  split.
  { rewrite count_occ_app, count_occ_rev.
    assert (H0 : count_occ call_eq_dec
                   (map (fun t => (engine_id engine, factory t)) order)
                   (engine_id engine, createFaceWarper) = 0).
    { apply count_occ_not_In. rewrite in_map_iff.
      intros (t & Ht & _). inversion Ht as [Hf].
      exact (factory_not_warper _ Hf). }
    rewrite H0. cbn [count_occ].
    destruct (call_eq_dec _ _); [reflexivity|contradiction]. }
  split.
  - intros t. rewrite count_occ_app, count_occ_rev.
    assert (Hw0 : count_occ call_eq_dec [(engine_id engine, createFaceWarper)]
                    (engine_id engine, factory t) = 0).
    { cbn [count_occ]. destruct (call_eq_dec _ _) as [E|]; [|reflexivity].
      inversion E as [Hf]. symmetry in Hf.
      destruct (factory_not_warper _ Hf). }
    rewrite Hw0, Nat.add_0_r.
    destruct (in_dec FaceEstimator_.eq_dec t start) as [Ht|Ht].
    + apply NoDup_count_occ'.
      * apply NoDup_calls. exact Hnodup.
      * apply (in_map (fun t => (engine_id engine, factory t))).
        apply Hmem. exact Ht.
    + apply count_occ_not_In.
      rewrite in_map_iff. intros (t' & E & Ht'). inversion E as [Hf].
      apply factory_injective in Hf. subst t'. apply Ht, Hmem, Ht'.
  - intros t. split.
    + intros Hs. destruct (in_dec FaceEstimator_.eq_dec t start) as [Ht|Ht];
        [exact Ht|].
      exfalso. apply Hs. rewrite Hout.
      * subst st0. destruct t; reflexivity.
      * intros Ho. apply Ht, Hmem, Ho.
    + intros Ht. apply Hmem in Ht. destruct (Hin _ Ht) as [n Hn].
      rewrite Hn. discriminate.
Qed.

Lemma first_seen_set_order : set_order first_seen.
Proof.
  intros l. split.
  - apply NoDup_nodup.
  - intros x. apply nodup_In.
Qed.

Lemma constructor_collapses_duplicates_witness :
  set_order first_seen /\
  (forall f n, engine_fails (reliable 1) f n = false) /\
  exists st added,
    __init__ first_seen (reliable 0) (Some [Eye; AGS; Eye]) (Some (reliable 1)) []
      = (st, Ok tt) /\
    calls st = (added ++ [])%list /\
    count_occ call_eq_dec added (1, createFaceWarper) = 1 /\
    (forall t,
       count_occ call_eq_dec added (1, factory t)
       = if in_dec FaceEstimator_.eq_dec t [Eye; AGS; Eye] then 1 else 0) /\
    (forall t, slot t (self st) <> None <-> In t [Eye; AGS; Eye]).
Proof.
  split; [exact first_seen_set_order|].
  split; [intros f n; reflexivity|].
  exact (constructor_collapses_duplicates first_seen (reliable 0)
           (Some [Eye; AGS; Eye]) (Some (reliable 1)) []
           first_seen_set_order (fun f n => eq_refl)).
Defined.

(** ** Sequences of operations and the handles in the slots *)

Lemma fst_discard {A} (m : M A) st : fst ((m ;;; ret tt) st) = fst (m st).
Proof. unfold bind, ret. destruct (m st) as [st' [a|e]]; reflexivity. Qed.

(** What an operation other than an engine assignment does to a slot,
    whether it returns or raises: it keeps it, empties it, fills it with a
    handle made by the current engine with the factory of the tag, or, for a
    setter, fills it with the handle given.  The engine stays. *)
Lemma perform_effect op st :
  is_rebind op = false ->
  _faceEngine (self (after st op)) = _faceEngine (self st) /\
  forall t,
    slot t (self (after st op)) = slot t (self st) \/
    slot t (self (after st op)) = None \/
    (exists n,
       slot t (self (after st op))
       = Some (Created (engine_id (_faceEngine (self st))) (factory t) n)) \/
    (exists h,
       op = Assign t (Some h) /\ slot t (self (after st op)) = Some h).
Proof.
  intros Hop. unfold after. destruct op as [v|t0|t0 v|v|e];
    try discriminate Hop; cbn [perform].
  - (* initEstimator *)
    destruct v as [t0| | | |];
      try (rewrite initEstimator_unknown by reflexivity; cbn [fst]; auto).
    rewrite initEstimator_Member. unfold bind, create, store.
    destruct (engine_fails _ _ _); cbn [fst self calls]; [auto|].
    split; [apply faceEngine_upd|]. intros t.
    destruct (FaceEstimator_.eq_dec t0 t) as [->|Hne].
    + rewrite slot_upd_same. right; right; left. eauto.
    + rewrite (slot_upd_other _ _ _ _ Hne). auto.
  - (* a lazy getter *)
    rewrite fst_discard.
    destruct (slot t0 (self st)) as [h|] eqn:Hslot.
    + rewrite (getter_cached _ _ _ Hslot). cbn [fst ret]. auto.
    + destruct (engine_fails (_faceEngine (self st)) (factory t0)
                  (length (calls st))) eqn:Hf.
      * rewrite (getter_engine_error _ _ Hslot Hf). cbn [fst self]. auto.
      * rewrite (getter_empty _ _ Hslot Hf). cbn [fst self ret].
        split; [apply faceEngine_upd|]. intros t.
        destruct (FaceEstimator_.eq_dec t0 t) as [->|Hne].
        -- rewrite slot_upd_same. right; right; left. eauto.
        -- rewrite (slot_upd_other _ _ _ _ Hne). auto.
  - (* a setter *)
    destruct (setter t0) as [set|] eqn:Hset; [|cbn; auto].
    rewrite (setter_store _ _ Hset). unfold store. cbn [fst self].
    split; [apply faceEngine_upd|]. intros t.
    destruct (FaceEstimator_.eq_dec t0 t) as [->|Hne].
    + rewrite slot_upd_same. destruct v as [h|]; [|auto].
      right; right; right. eauto.
    + rewrite (slot_upd_other _ _ _ _ Hne). auto.
  - (* removeEstimator *)
    unfold removeEstimator, bind, lift.
    destruct (_getAttributeNameByEstimator v) as [n|e] eqn:Hn; [|cbn; auto].
    apply getAttributeName_handle_slot in Hn. vm_compute in Hn.
    destruct st as [log c]. destruct c.
    repeat (destruct Hn as [Hn|Hn];
            [subst n; split; [reflexivity|]; intros t; destruct t;
             vm_compute; auto|]).
    contradiction.
Qed.

Lemma slots_sound_after given op st :
  is_rebind op = false ->
  slots_sound given st ->
  slots_sound (fun h => given h \/ supplied [op] h) (after st op).
Proof.
  intros Hop Hst t h Hslot.
  destruct (perform_effect op st Hop) as [He Hs]. rewrite He.
  destruct (Hs t) as [Hk|[Hk|[[n Hk]|[h' [-> Hk]]]]]; rewrite Hk in Hslot.
  - destruct (Hst t h Hslot); auto.
  - discriminate.
  - inversion Hslot. eauto.
  - inversion Hslot. subst h'. left. right. exists t. left. reflexivity.
Qed.

Lemma slots_sound_run ops : forall given st,
  forallb (fun op => negb (is_rebind op)) ops = true ->
  slots_sound given st ->
  slots_sound (fun h => given h \/ supplied ops h) (run ops st).
Proof.
  induction ops as [|op ops IH]; intros given st Hops Hst.
  - cbn. intros t h Hslot. destruct (Hst t h Hslot); auto.
  - cbn [forallb] in Hops. apply andb_prop in Hops. destruct Hops as [Hop Hops].
    apply negb_true_iff in Hop. cbn [run fold_left].
    pose proof (IH _ _ Hops (slots_sound_after given op st Hop Hst)) as H.
    intros t h Hslot. destruct (H t h Hslot) as [[[Hg|[t' Hs]]|[t' Hs]]|Hc].
    + auto.
    + left. right. exists t'. destruct Hs as [Hs|[]]. left. exact Hs.
    + left. right. exists t'. right. exact Hs.
    + auto.
Qed.

(** The loop of the constructor keeps the slots sound, whatever the order
    and whether it ends or an engine error stops it. *)
Lemma slots_sound_for_each l : forall st st' r,
  for_each l (fun estimator => initEstimator (Member estimator)) st = (st', r) ->
  slots_sound (fun _ => False) st ->
  slots_sound (fun _ => False) st'.
Proof.
  induction l as [|x rest IH]; intros st st' r.
  - cbn. intros H; inversion H; auto.
  - cbn [for_each]. unfold bind.
    destruct (initEstimator (Member x) st) as [st1 [[]|e]] eqn:Hx;
      intros Hrun Hst.
    + apply (IH _ _ _ Hrun).
      pose proof (slots_sound_after _ (Init (Member x)) st eq_refl Hst) as H.
      unfold after in H. cbn [perform] in H. rewrite Hx in H.
      intros t h Hs. destruct (H t h Hs) as [[[]|[t' [Hin|[]]]]|Hc];
        [discriminate Hin|auto].
    + inversion Hrun. subst st'.
      pose proof (slots_sound_after _ (Init (Member x)) st eq_refl Hst) as H.
      unfold after in H. cbn [perform] in H. rewrite Hx in H.
      intros t h Hs. destruct (H t h Hs) as [[[]|[t' [Hin|[]]]]|Hc];
        [discriminate Hin|auto].
Qed.

Lemma slots_sound_constructed py_set default_engine start faceEngine log st r :
  __init__ py_set default_engine start faceEngine log = (st, r) ->
  slots_sound (fun _ => False) st.
Proof.
  unfold __init__, bind, store, create.
  cbn [self calls blank upd_basicAttributesEstimator upd_eyeEstimator
       upd_emotionsEstimator upd_gazeDirectionEstimator
       upd_mouthStateEstimator upd_warpQualityEstimator
       upd_headPoseEstimator upd_AGSEstimator upd_descriptorEstimator
       _faceEngine].
  destruct (engine_fails _ _ _).
  - intros H; inversion H. intros t h Hs. destruct t; discriminate Hs.
  - cbn [self calls upd_warper]. destruct (truthy start).
    + intros H. apply slots_sound_for_each in H; [exact H|].
      intros t h Hs. destruct t; discriminate Hs.
    + intros H; inversion H. intros t h Hs. destruct t; discriminate Hs.
Qed.

(** C4, as stated, fails: a setter stores what it is given.  On a
    constructed collection, after the setter of the head pose estimator was
    given a handle of the caller's own, the slot holds a handle that the
    current engine did not make. *)
Lemma setter_breaks_slots_current :
  ~ slots_current
      (self (run [Assign HeadPose (Some (Custom 0))]
               (constructed None (reliable 1)))).
Proof.
  intros H. destruct (H HeadPose (Custom 0) eq_refl) as (f & n & E).
  discriminate E.
Qed.

(** An engine assignment that raises leaves handles of the engine before:
    here the descriptor estimator of engine 1 under engine 2. *)
Lemma rebind_leaves_stale_handle :
  ~ slots_current
      (self (run [Rebind (reliable 2)]
               (constructed (Some [Descriptor]) (reliable 1)))).
Proof.
  intros H.
  destruct (H Descriptor (Created 1 createFaceDescriptorEstimator 1) eq_refl)
    as (f & n & E).
  vm_compute in E. discriminate E.
Qed.

(** C4, amended.  On a collection that the constructor returned, after any
    sequence of [initEstimator], lazy gets, setters and [removeEstimator],
    returned or raised, every slot is empty, or holds a handle that one of
    the setters was given, or holds a handle that the engine of the
    collection made with the factory of the slot's tag.  Engine assignments
    are not among the operations of the sequence. *)
Theorem slots_current_or_supplied
  (py_set : list FaceEstimator -> list FaceEstimator)
  (default_engine : VLFaceEngine)
  (startEstimators : option (list FaceEstimator))
  (faceEngine : option VLFaceEngine)
  (log : list (nat * Factory)) (st : State) (ops : list Op) :
  __init__ py_set default_engine startEstimators faceEngine log = (st, Ok tt) ->
  forallb (fun op => negb (is_rebind op)) ops = true ->
  slots_sound (supplied ops) (run ops st).
Proof.
  intros Hinit Hops.
  pose proof (slots_sound_run ops _ st Hops
                (slots_sound_constructed _ _ _ _ _ _ _ Hinit)) as H.
  intros t h Hslot. destruct (H t h Hslot) as [[[]|Hs]|Hc]; auto.
Qed.

Lemma slots_current_or_supplied_witness :
  __init__ first_seen (reliable 0) (Some [Eye; Emotions]) (Some (reliable 1)) []
    = (constructed (Some [Eye; Emotions]) (reliable 1), Ok tt) /\
  forallb (fun op => negb (is_rebind op))
    [Get HeadPose; Assign AGS (Some (Custom 5)); Remove (Member Emotions);
     Init (Member Eye); Remove (Member HeadPose)] = true /\
  slots_sound
    (supplied
       [Get HeadPose; Assign AGS (Some (Custom 5)); Remove (Member Emotions);
        Init (Member Eye); Remove (Member HeadPose)])
    (run
       [Get HeadPose; Assign AGS (Some (Custom 5)); Remove (Member Emotions);
        Init (Member Eye); Remove (Member HeadPose)]
       (constructed (Some [Eye; Emotions]) (reliable 1))).
Proof.
  split; [reflexivity|]. split; [reflexivity|].
  exact (slots_current_or_supplied first_seen (reliable 0)
           (Some [Eye; Emotions]) (Some (reliable 1)) []
           (constructed (Some [Eye; Emotions]) (reliable 1))
           [Get HeadPose; Assign AGS (Some (Custom 5)); Remove (Member Emotions);
            Init (Member Eye); Remove (Member HeadPose)]
           eq_refl eq_refl).
Defined.

(** * Further properties of the module *)

(** ** The lookups *)

Lemma lower_length s : String.length (Py.lower s) = String.length s.
Proof. induction s as [|c r IH]; cbn; [reflexivity|]. rewrite IH. reflexivity. Qed.

Lemma substring_length s : forall n m,
  n + m <= String.length s -> String.length (substring n m s) = m.
Proof.
  induction s as [|c r IH]; intros n m H; cbn in H.
  - destruct n, m; cbn; lia.
  - destruct n as [|n]; cbn.
    + destruct m as [|m]; cbn; [reflexivity|]. rewrite IH; lia.
    + apply IH. lia.
Qed.

Lemma substring_nothing s : forall n, substring n 0 s = "".
Proof.
  induction s as [|c r IH]; intros [|n]; cbn; try reflexivity. apply IH.
Qed.

(** The slice drops ten characters, or all of them when there are fewer. *)
Lemma strip_length n : String.length (strip n) = String.length n - 10.
Proof.
  unfold strip, Py.slice, Py.clamp, Py.len.
  change (Z.of_nat (String.length "Estimator")) with 9%Z.
  destruct (String.length n) as [|k] eqn:Hk.
  - destruct n; [reflexivity|discriminate Hk].
  - change (- (9) <? 0)%Z with true. change (1 <? 0)%Z with false.
    cbv beta iota.
    destruct (Nat.le_gt_cases 10 (S k)) as [Hle|Hgt].
    + rewrite substring_length; [lia|rewrite Hk; lia].
    + replace (Z.to_nat (Z.max (- (9) + Z.of_nat (S k)) 0
                         - Z.min 1 (Z.of_nat (S k)))) with 0 by lia.
      replace (S k - 10) with 0 by lia.
      rewrite substring_nothing. reflexivity.
Qed.

(** The lowercased names of the tags are those of one tag each, so the
    order of the scan over the enumeration does not show. *)
Lemma first_member_found s t :
  first_member s FaceEstimator_.members = Ok t <->
  Py.lower (FaceEstimator_.name t) = s.
Proof.
  split.
  - unfold FaceEstimator_.members. cbn [first_member].
    repeat match goal with
           | |- context [if ?x =? s then _ else _] =>
               destruct (String.eqb_spec x s)
           end;
      intros H; inversion H; subst; solve [assumption | reflexivity].
  - intros <-. destruct t; reflexivity.
Qed.

Lemma first_member_error s e :
  first_member s FaceEstimator_.members = Raise e ->
  e = ValueError "Bad attribute name".
Proof.
  unfold FaceEstimator_.members. cbn [first_member].
  repeat match goal with
         | |- context [if ?b then _ else _] => destruct b
         end;
    intros H; inversion H; reflexivity.
Qed.

(** [_getEstimatorByAttributeName] returns the tag whose lowercased name is
    the argument without its first and its nine last characters, whatever
    these characters are, and raises [ValueError] when there is no such
    tag; it raises nothing else. *)
Theorem getEstimatorByAttributeName_spec (n : string) :
  (forall t,
     _getEstimatorByAttributeName n = Ok t <->
     Py.lower (FaceEstimator_.name t) = strip n) /\
  (forall e,
     _getEstimatorByAttributeName n = Raise e ->
     e = ValueError "Bad attribute name").
Proof.
  split.
  - intros t. apply first_member_found.
  - intros e. apply first_member_error.
Qed.

(** A name that leads to a tag has ten characters more than the name of the
    tag; so the empty string and every name of at most twelve characters
    lead to no tag. *)
Theorem getEstimatorByAttributeName_length (n : string) (t : FaceEstimator) :
  _getEstimatorByAttributeName n = Ok t ->
  String.length n = String.length (FaceEstimator_.name t) + 10 /\
  13 <= String.length n.
Proof.
  intros H. apply first_member_found in H.
  apply (f_equal String.length) in H.
  rewrite lower_length, strip_length in H.
  assert (3 <= String.length (FaceEstimator_.name t)) by (destruct t; cbn; lia).
  lia.
Qed.

Lemma getEstimatorByAttributeName_length_witness :
  _getEstimatorByAttributeName "_eyeEstimator" = Ok Eye /\
  String.length "_eyeEstimator" = String.length (FaceEstimator_.name Eye) + 10 /\
  13 <= String.length "_eyeEstimator".
Proof.
  split; [reflexivity|].
  exact (getEstimatorByAttributeName_length "_eyeEstimator" Eye eq_refl).
Defined.

(** On the names of [__slots__] the two lookups are inverse to each other
    wherever one of them returns: a tag has the storage name [n] exactly when
    [n] leads to the tag. *)
Theorem lookups_inverse_on_slots (t : FaceEstimator) (n : string) :
  In n __slots__ ->
  (_getAttributeNameByEstimator (Member t) = Ok n <->
   _getEstimatorByAttributeName n = Ok t).
Proof.
  intros Hn. vm_compute in Hn.
  repeat (destruct Hn as [Hn|Hn];
          [subst n; destruct t; vm_compute; split; intros H;
           solve [reflexivity | inversion H]|]).
  contradiction.
Qed.

Lemma lookups_inverse_on_slots_witness :
  In "_descriptorEstimator" __slots__ /\
  (_getAttributeNameByEstimator (Member Descriptor) = Ok "_descriptorEstimator" <->
   _getEstimatorByAttributeName "_descriptorEstimator" = Ok Descriptor).
Proof.
  split.
  - vm_compute. tauto.
  - apply (lookups_inverse_on_slots Descriptor "_descriptorEstimator").
    vm_compute. tauto.
Defined.

(** [_getAttributeNameByEstimator] returns the handle slot, never
    [_faceEngine], whose name without its first and its nine last characters
    is the lowercased [name] of the argument; the slots differ in this, so
    the order of [__slots__] does not show.  It raises [AttributeError] for
    an argument without a [name] and [ValueError] when no slot fits. *)
Theorem getAttributeNameByEstimator_spec (v : PyArg) :
  (forall n,
     _getAttributeNameByEstimator v = Ok n <->
     In n handle_slots /\
     exists s, attr_name v = Ok s /\ Py.lower s = strip n) /\
  (forall e,
     _getAttributeNameByEstimator v = Raise e ->
     (e = AttributeError "name" /\ has_name v = false) \/
     (e = ValueError "Bad estimator" /\ has_name v = true)).
Proof.
  split.
  - intros n. split.
    + unfold _getAttributeNameByEstimator, __slots__.
      cbn [first_slot String.eqb Ascii.eqb Bool.eqb].
      destruct (attr_name v) as [s|e]; [|discriminate].
      repeat match goal with
             | |- context [if ?x =? ?y then _ else _] =>
                 destruct (String.eqb_spec x y)
             end;
        intros H; inversion H; subst;
        (split; [vm_compute; tauto|exists s; split; [reflexivity|assumption]]).
    + intros (Hn & s & Hattr & Hl). vm_compute in Hn.
      unfold _getAttributeNameByEstimator, __slots__.
      cbn [first_slot String.eqb Ascii.eqb Bool.eqb].
      rewrite Hattr. cbv beta iota.
      repeat (destruct Hn as [Hn|Hn];
              [subst n; rewrite Hl; vm_compute; reflexivity|]).
      contradiction.
  - intros e. unfold _getAttributeNameByEstimator, __slots__.
    cbn [first_slot String.eqb Ascii.eqb Bool.eqb].
    destruct v; cbn [attr_name has_name];
      try (intros H; inversion H; left; split; reflexivity);
      repeat match goal with
             | |- context [if ?b then _ else _] => destruct b
             end;
      intros H; inversion H; right; split; reflexivity.
Qed.

(** ** [removeEstimator] *)

(** [removeEstimator], whatever it is given, makes no factory call, keeps
    the engine, and leaves each slot as it was or empty; when it raises it
    leaves the whole state as it was.  Given a tag, it also keeps the warper
    and the slots of the other tags. *)
Theorem removeEstimator_frame (v : PyArg) (st : State) :
  calls (fst (removeEstimator v st)) = calls st /\
  _faceEngine (self (fst (removeEstimator v st))) = _faceEngine (self st) /\
  (forall t,
     slot t (self (fst (removeEstimator v st))) = slot t (self st) \/
     slot t (self (fst (removeEstimator v st))) = None) /\
  (forall e,
     snd (removeEstimator v st) = Raise e -> fst (removeEstimator v st) = st) /\
  (forall t,
     v = Member t ->
     warper (self (fst (removeEstimator v st))) = warper (self st) /\
     forall t', t' <> t ->
       slot t' (self (fst (removeEstimator v st))) = slot t' (self st)).
Proof.
  assert (Hraise : forall e,
            snd (removeEstimator v st) = Raise e ->
            fst (removeEstimator v st) = st).
  { intros e He. destruct (removeEstimator v st) as [st' r] eqn:Hr.
    cbn [fst snd] in *. subst r.
    exact (removeEstimator_raise_unchanged _ _ _ _ Hr). }
  assert (Hmember : forall t,
            v = Member t ->
            warper (self (fst (removeEstimator v st))) = warper (self st) /\
            forall t', t' <> t ->
              slot t' (self (fst (removeEstimator v st))) = slot t' (self st)).
  { intros t ->. destruct st as [log c]. destruct c.
    split; [destruct t; reflexivity|].
    intros t' Hne. destruct t, t'; try reflexivity; contradiction Hne; reflexivity. }
  unfold removeEstimator, bind, lift in *.
  destruct (_getAttributeNameByEstimator v) as [n|e] eqn:Hn.
  - apply getAttributeName_handle_slot in Hn. vm_compute in Hn.
    destruct st as [log c]. destruct c.
    repeat (destruct Hn as [Hn|Hn];
            [subst n; split; [reflexivity|]; split; [reflexivity|];
             split; [intros t; destruct t; vm_compute; auto|];
             split; [exact Hraise|exact Hmember]|]).
    contradiction.
  - cbn [fst snd] in *. repeat split; auto; apply (Hmember t); assumption.
Qed.

Lemma remove_then_get_witness :
  _getAttributeNameByEstimator (Member Emotions) = Ok "_emotionsEstimator" /\
  exists st1 st2,
    removeEstimator (Member Emotions) (constructed (Some [Emotions]) (reliable 1))
      = (st1, Ok tt) /\
    slot Emotions (self st1) = None /\
    getter Emotions st1 = (st2, Ok (Some (Created 1 createEmotionEstimator 2))) /\
    calls st2 =
      (1, createEmotionEstimator)
        :: calls (constructed (Some [Emotions]) (reliable 1)).
Proof.
  split; [reflexivity|].
  exact (remove_then_get Emotions "_emotionsEstimator"
           (constructed (Some [Emotions]) (reliable 1)) eq_refl eq_refl).
Defined.

(** ** The [faceEngine] setter *)

Lemma getattr_slot n st :
  In n __slots__ -> exists v, getattr n st = (st, Ok v).
Proof.
  intros Hn. vm_compute in Hn.
  repeat (destruct Hn as [Hn|Hn]; [subst n; eexists; reflexivity|]).
  contradiction.
Qed.

(** The loop over the slots, run to its end or to an exception, keeps the
    engine that the setter stored before it. *)
Lemma reinit_slots_keeps_engine slots : forall st st' r,
  incl slots __slots__ ->
  reinit_slots slots st = (st', r) ->
  _faceEngine (self st') = _faceEngine (self st).
Proof.
  induction slots as [|n rest IH]; intros st st' r Hincl.
  - cbn. intros H; inversion H; reflexivity.
  - assert (Hrest : incl rest __slots__)
      by (intros x Hx; apply Hincl; right; exact Hx).
    cbn [reinit_slots]. destruct (n =? "_faceEngine"); [apply IH, Hrest|].
    destruct (getattr_slot n st (Hincl n (or_introl eq_refl))) as [v Hget].
    unfold bind. rewrite Hget. destruct (is_not_None v).
    + unfold lift. destruct (_getEstimatorByAttributeName n) as [t|e].
      * rewrite initEstimator_Member. unfold bind, create, store.
        destruct (engine_fails _ _ _).
        -- intros H; inversion H; reflexivity.
        -- cbn [self calls]. intros H. apply (IH _ _ _ Hrest) in H.
           rewrite H. cbn [self]. apply faceEngine_upd.
      * intros H; inversion H; reflexivity.
    + apply IH, Hrest.
Qed.

(** The loop raises the registry's [ValueError] or an error of the engine,
    nothing else. *)
Lemma reinit_slots_error slots : forall st st' e,
  incl slots __slots__ ->
  reinit_slots slots st = (st', Raise e) ->
  e = ValueError "Bad attribute name" \/
  exists f n, e = EngineError (engine_id (_faceEngine (self st))) f n.
Proof.
  induction slots as [|n rest IH]; intros st st' e Hincl.
  - cbn. discriminate.
  - assert (Hrest : incl rest __slots__)
      by (intros x Hx; apply Hincl; right; exact Hx).
    cbn [reinit_slots]. destruct (n =? "_faceEngine"); [apply IH, Hrest|].
    destruct (getattr_slot n st (Hincl n (or_introl eq_refl))) as [v Hget].
    unfold bind. rewrite Hget. destruct (is_not_None v).
    + unfold lift.
      destruct (_getEstimatorByAttributeName n) as [t|e'] eqn:Hname.
      * rewrite initEstimator_Member. unfold bind, create, store.
        destruct (engine_fails _ _ _).
        -- intros H; inversion H. right. eauto.
        -- cbn [self calls]. intros H. apply (IH _ _ _ Hrest) in H.
           cbn [self] in H. rewrite faceEngine_upd in H. exact H.
      * intros H; inversion H; subst. left.
        exact (first_member_error _ _ Hname).
    + apply IH, Hrest.
Qed.

(** What assigning an engine does to a collection whose warper is not
    [None]. *)
Lemma set_faceEngine_stops newFaceEngine st h :
  warper (self st) = Some h ->
  exists st' e,
    set_faceEngine newFaceEngine st = (st', Raise e) /\
    _faceEngine (self st') = newFaceEngine /\
    warper (self st') = Some h /\
    (e = ValueError "Bad attribute name" \/
     exists f n, e = EngineError (engine_id newFaceEngine) f n).
Proof.
  intros Hw.
  destruct (set_faceEngine_raises newFaceEngine st h Hw) as (st' & e & Hset).
  exists st', e. split; [exact Hset|].
  revert Hset. unfold set_faceEngine. unfold bind at 1. unfold store at 1.
  set (st0 := mkState _ _).
  assert (Hw0 : warper (self st0) = Some h).
  { subst st0. cbn [self]. destruct st as [log []]. exact Hw. }
  assert (He0 : _faceEngine (self st0) = newFaceEngine).
  { subst st0. cbn [self]. destruct st as [log []]. reflexivity. }
  clearbody st0. unfold bind at 1.
  destruct (reinit_slots __slots__ st0) as [st1 [[]|e1]] eqn:Hloop.
  - pose proof (reinit_slots_keeps_warper _ _ _ _ Hloop) as Hw1.
    unfold bind, create, store.
    destruct (engine_fails _ _ _); intros H; inversion H; subst st' e.
    pose proof (reinit_slots_keeps_engine _ _ _ _ (incl_refl _) Hloop) as He1.
    cbn [self]. rewrite Hw1, Hw0, He1, He0. split; [reflexivity|].
    split; [reflexivity|]. right. eauto.
  - intros H; inversion H; subst st' e.
    split; [|split].
    + rewrite (reinit_slots_keeps_engine _ _ _ _ (incl_refl _) Hloop). exact He0.
    + rewrite (reinit_slots_keeps_warper _ _ _ _ Hloop). exact Hw0.
    + rewrite <- He0. exact (reinit_slots_error _ _ _ _ (incl_refl _) Hloop).
Qed.

(** On a collection whose warper is not [None], assigning an engine always
    raises, [ValueError] unless an error of the new engine came first; the
    new engine is stored all the same, and the warper stays the old one. *)
Theorem set_faceEngine_with_warper (newFaceEngine : VLFaceEngine)
  (st : State) (h : Handle) :
  warper (self st) = Some h ->
  exists st' e,
    set_faceEngine newFaceEngine st = (st', Raise e) /\
    _faceEngine (self st') = newFaceEngine /\
    warper (self st') = Some h /\
    (e = ValueError "Bad attribute name" \/
     exists f n, e = EngineError (engine_id newFaceEngine) f n).
Proof. apply set_faceEngine_stops. Qed.

Lemma set_faceEngine_with_warper_witness :
  warper (self (constructed (Some [Eye]) (reliable 1)))
    = Some (Created 1 createFaceWarper 0) /\
  exists st' e,
    set_faceEngine (reliable 2) (constructed (Some [Eye]) (reliable 1))
      = (st', Raise e) /\
    _faceEngine (self st') = reliable 2 /\
    warper (self st') = Some (Created 1 createFaceWarper 0) /\
    (e = ValueError "Bad attribute name" \/
     exists f n, e = EngineError (engine_id (reliable 2)) f n).
Proof.
  split; [reflexivity|].
  exact (set_faceEngine_with_warper (reliable 2)
           (constructed (Some [Eye]) (reliable 1))
           (Created 1 createFaceWarper 0) eq_refl).
Defined.

(** On a collection whose warper is [None] and whose only filled slots are
    those of tags that resolve, assigning an engine that does not fail
    completes: the engine is stored, every filled slot gets a handle that the
    new engine made with the factory of the slot's tag, every empty slot
    stays empty, and the warper is one made by the new engine. *)
Theorem set_faceEngine_completes (newFaceEngine : VLFaceEngine) (st : State) :
  warper (self st) = None ->
  (forall t, resolves t = false -> slot t (self st) = None) ->
  (forall f n, engine_fails newFaceEngine f n = false) ->
  exists st',
    set_faceEngine newFaceEngine st = (st', Ok tt) /\
    _faceEngine (self st') = newFaceEngine /\
    (exists k, warper (self st')
               = Some (Created (engine_id newFaceEngine) createFaceWarper k)) /\
    (forall t, slot t (self st) = None -> slot t (self st') = None) /\
    (forall t h, slot t (self st) = Some h ->
       exists k, slot t (self st')
                 = Some (Created (engine_id newFaceEngine) (factory t) k)).
Proof.
  intros Hw Hres Hrel.
  destruct st as [log c]. destruct c as [hp eye gz ms wq ba em eng ags w desc].
  cbn in Hw. subst w.
  pose proof (Hres HeadPose eq_refl) as H1.
  pose proof (Hres GazeDirection eq_refl) as H2.
  pose proof (Hres MouthState eq_refl) as H3.
  pose proof (Hres WarpQuality eq_refl) as H4.
  pose proof (Hres BasicAttributes eq_refl) as H5.
  pose proof (Hres AGS eq_refl) as H6.
  cbn in H1, H2, H3, H4, H5, H6. subst hp gz ms wq ba ags. clear Hres.
  destruct newFaceEngine as [id fails]. cbn [engine_fails engine_id] in *.
  destruct eye, em, desc;
    (eexists; split; [vm_compute; rewrite !Hrel; reflexivity|]);
    (split; [reflexivity|]); (split; [eexists; reflexivity|]);
    (split; [intros t; destruct t; cbn [slot self _headPoseEstimator _eyeEstimator _gazeDirectionEstimator _mouthStateEstimator _warpQualityEstimator _basicAttributesEstimator _emotionsEstimator _AGSEstimator _descriptorEstimator]; intros H; solve [reflexivity | discriminate H]
           |intros t h'; destruct t; cbn [slot self _headPoseEstimator _eyeEstimator _gazeDirectionEstimator _mouthStateEstimator _warpQualityEstimator _basicAttributesEstimator _emotionsEstimator _AGSEstimator _descriptorEstimator]; intros H; try discriminate H; eexists; reflexivity]).
Qed.

Lemma set_faceEngine_completes_witness :
  exists st',
    set_faceEngine (reliable 2)
      (mkState []
         (mkCollection None (Some (Custom 1)) None None None None None
            (reliable 1) None None (Some (Custom 2))))
      = (st', Ok tt) /\
    _faceEngine (self st') = reliable 2 /\
    (exists k, warper (self st')
               = Some (Created (engine_id (reliable 2)) createFaceWarper k)) /\
    (forall t,
       slot t (self (mkState []
                       (mkCollection None (Some (Custom 1)) None None None None
                          None (reliable 1) None None (Some (Custom 2)))))
       = None -> slot t (self st') = None) /\
    (forall t h,
       slot t (self (mkState []
                       (mkCollection None (Some (Custom 1)) None None None None
                          None (reliable 1) None None (Some (Custom 2)))))
       = Some h ->
       exists k, slot t (self st')
                 = Some (Created (engine_id (reliable 2)) (factory t) k)).
Proof.
  apply (set_faceEngine_completes (reliable 2)
           (mkState []
              (mkCollection None (Some (Custom 1)) None None None None None
                 (reliable 1) None None (Some (Custom 2))))).
  - reflexivity.
  - intros t. destruct t; cbn; intros H; try reflexivity; discriminate H.
  - intros f n. reflexivity.
Defined.

(** ** Errors of the engine *)

(** When the factory fails, [initEstimator] passes the error of the engine
    on unchanged; the call was made, and the collection, with the handle the
    slot held before, is as it was. *)
Theorem initEstimator_engine_error (t : FaceEstimator) (st : State) :
  engine_fails (_faceEngine (self st)) (factory t) (length (calls st)) = true ->
  initEstimator (Member t) st =
  (mkState ((engine_id (_faceEngine (self st)), factory t) :: calls st) (self st),
   Raise (EngineError (engine_id (_faceEngine (self st))) (factory t)
            (length (calls st)))).
Proof.
  intros H. rewrite initEstimator_Member. unfold bind.
  rewrite (create_fails _ _ H). reflexivity.
Qed.

Lemma initEstimator_engine_error_witness :
  initEstimator (Member Eye) (constructed (Some [Eye]) (failing_at 1 [2])) =
  (mkState ((1, createEyeEstimator)
              :: calls (constructed (Some [Eye]) (failing_at 1 [2])))
     (self (constructed (Some [Eye]) (failing_at 1 [2]))),
   Raise (EngineError 1 createEyeEstimator 2)) /\
  _eyeEstimator (self (constructed (Some [Eye]) (failing_at 1 [2])))
    = Some (Created 1 createEyeEstimator 1).
Proof.
  split; [|reflexivity].
  exact (initEstimator_engine_error Eye
           (constructed (Some [Eye]) (failing_at 1 [2])) eq_refl).
Defined.

(** A lazy get whose factory call fails passes the error on and caches
    nothing: the slot stays empty, and the next lazy get calls the factory
    again and, when this call returns, caches and returns its handle. *)
Theorem lazy_get_retries_after_error (t : FaceEstimator) (st : State) :
  slot t (self st) = None ->
  engine_fails (_faceEngine (self st)) (factory t) (length (calls st)) = true ->
  engine_fails (_faceEngine (self st)) (factory t) (S (length (calls st))) = false ->
  exists st1 st2,
    getter t st =
      (st1, Raise (EngineError (engine_id (_faceEngine (self st))) (factory t)
                     (length (calls st)))) /\
    self st1 = self st /\
    getter t st1 =
      (st2, Ok (Some (Created (engine_id (_faceEngine (self st))) (factory t)
                        (S (length (calls st)))))) /\
    slot t (self st2) =
      Some (Created (engine_id (_faceEngine (self st))) (factory t)
              (S (length (calls st)))) /\
    calls st2 =
      (engine_id (_faceEngine (self st)), factory t)
        :: (engine_id (_faceEngine (self st)), factory t) :: calls st.
Proof.
  intros Hs Hf1 Hf2.
  pose proof (getter_engine_error t st Hs Hf1) as E1.
  set (st1 := mkState _ _) in E1.
  pose proof (getter_empty t st1 Hs Hf2) as E2.
  exists st1. eexists. split; [exact E1|]. split; [reflexivity|].
  split; [exact E2|]. cbn [self calls]. rewrite slot_upd_same. auto.
Qed.

Lemma lazy_get_retries_after_error_witness :
  exists st1 st2,
    getter AGS (constructed None (failing_at 1 [1]))
      = (st1, Raise (EngineError 1 createAGSEstimator 1)) /\
    self st1 = self (constructed None (failing_at 1 [1])) /\
    getter AGS st1 = (st2, Ok (Some (Created 1 createAGSEstimator 2))) /\
    slot AGS (self st2) = Some (Created 1 createAGSEstimator 2) /\
    calls st2 =
      (1, createAGSEstimator) :: (1, createAGSEstimator)
        :: calls (constructed None (failing_at 1 [1])).
Proof.
  exact (lazy_get_retries_after_error AGS (constructed None (failing_at 1 [1]))
           eq_refl eq_refl eq_refl).
Defined.

(** ** The constructor and the warper *)

(** The loop of the constructor, run to its end or to an exception, keeps
    the warper and the engine. *)
Lemma for_each_initEstimator_keeps l : forall st st' r,
  for_each l (fun estimator => initEstimator (Member estimator)) st = (st', r) ->
  warper (self st') = warper (self st) /\
  _faceEngine (self st') = _faceEngine (self st).
Proof.
  induction l as [|x rest IH]; intros st st' r.
  - cbn. intros H; inversion H; auto.
  - cbn [for_each]. unfold bind. rewrite initEstimator_Member.
    unfold bind, create, store. destruct (engine_fails _ _ _).
    + intros H; inversion H; auto.
    + cbn [self calls]. intros H. apply IH in H. cbn [self] in H.
      rewrite warper_upd, faceEngine_upd in H. exact H.
Qed.




(** A collection that the constructor returned holds the engine it was
    built on and the warper of the first factory call. *)
Lemma constructor_warper py_set default_engine start faceEngine log st :
  __init__ py_set default_engine start faceEngine log = (st, Ok tt) ->
  warper (self st)
  = Some (Created
            (engine_id match faceEngine with
                       | None => default_engine
                       | Some e => e
                       end)
            createFaceWarper (length log)).
Proof.
  unfold __init__, bind, store, create.
  cbn [self calls blank upd_basicAttributesEstimator upd_eyeEstimator
       upd_emotionsEstimator upd_gazeDirectionEstimator
       upd_mouthStateEstimator upd_warpQualityEstimator
       upd_headPoseEstimator upd_AGSEstimator upd_descriptorEstimator
       _faceEngine].
  destruct (engine_fails _ _ _); [discriminate|].
  cbn [self calls upd_warper]. destruct (truthy start).
  - intros H. apply for_each_initEstimator_keeps in H.
    rewrite (proj1 H). reflexivity.
  - intros H; inversion H. reflexivity.
Qed.

(** No operation, used as annotated, changes a warper that is there. *)
Lemma after_keeps_warper op st h :
  typed op = true ->
  warper (self st) = Some h -> warper (self (after st op)) = Some h.
Proof.
  intros Hop Hw. unfold after. destruct op as [v|t|t v|v|e]; cbn [perform].
  - destruct v as [t| | | |]; try discriminate Hop.
    rewrite initEstimator_Member. unfold bind, create, store.
    destruct (engine_fails _ _ _); cbn [fst self]; [exact Hw|].
    rewrite warper_upd. exact Hw.
  - rewrite fst_discard. destruct (slot t (self st)) as [h'|] eqn:Hslot.
    + rewrite (getter_cached _ _ _ Hslot). exact Hw.
    + destruct (engine_fails (_faceEngine (self st)) (factory t)
                  (length (calls st))) eqn:Hf.
      * rewrite (getter_engine_error _ _ Hslot Hf). exact Hw.
      * rewrite (getter_empty _ _ Hslot Hf). cbn [fst self].
        rewrite warper_upd. exact Hw.
  - destruct (setter t) as [set|] eqn:Hset; [|exact Hw].
    rewrite (setter_store _ _ Hset). unfold store. cbn [fst self].
    rewrite warper_upd. exact Hw.
  - destruct v as [t| | | |]; try discriminate Hop.
    destruct st as [log c]. destruct c. cbn [self warper] in Hw.
    destruct t; vm_compute; exact Hw.
  - destruct (set_faceEngine_stops e st h Hw) as (st' & e' & Hset & _ & Hw' & _).
    rewrite Hset. exact Hw'.
Qed.

(** On a collection that the constructor returned, whatever sequence of
    operations used as annotated follows, engine assignments among them, the
    warper is still the one the constructor made on the first engine, and an
    engine assignment raises. *)
Theorem warper_is_never_recreated
  (py_set : list FaceEstimator -> list FaceEstimator)
  (default_engine : VLFaceEngine)
  (startEstimators : option (list FaceEstimator))
  (faceEngine : option VLFaceEngine)
  (log : list (nat * Factory)) (st : State) (ops : list Op) :
  __init__ py_set default_engine startEstimators faceEngine log = (st, Ok tt) ->
  forallb typed ops = true ->
  warper (self (run ops st))
  = Some (Created
            (engine_id match faceEngine with
                       | None => default_engine
                       | Some e => e
                       end)
            createFaceWarper (length log)) /\
  forall newFaceEngine,
  exists st' e, set_faceEngine newFaceEngine (run ops st) = (st', Raise e).
Proof.
  intros Hinit Hops. apply constructor_warper in Hinit.
  assert (Hw : warper (self (run ops st))
               = Some (Created
                         (engine_id match faceEngine with
                                    | None => default_engine
                                    | Some e => e
                                    end)
                         createFaceWarper (length log))).
  { revert st Hinit Hops. induction ops as [|op ops IH]; intros st Hw Hops.
    - exact Hw.
    - cbn [forallb] in Hops. apply andb_prop in Hops.
      cbn [run fold_left]. apply IH; [|apply Hops].
      apply after_keeps_warper; [apply Hops|exact Hw]. }
  split; [exact Hw|].
  intros newFaceEngine.
  destruct (set_faceEngine_stops newFaceEngine _ _ Hw) as (st' & e & Hset & _).
  eauto.
Qed.

Lemma warper_is_never_recreated_witness :
  forallb typed
    [Get HeadPose; Rebind (reliable 2); Remove (Member Eye);
     Assign AGS None; Init (Member Descriptor); Rebind (reliable 3)] = true /\
  warper
    (self (run
             [Get HeadPose; Rebind (reliable 2); Remove (Member Eye);
              Assign AGS None; Init (Member Descriptor); Rebind (reliable 3)]
             (constructed (Some [Eye]) (reliable 1))))
  = Some (Created 1 createFaceWarper 0) /\
  forall newFaceEngine,
  exists st' e,
    set_faceEngine newFaceEngine
      (run
         [Get HeadPose; Rebind (reliable 2); Remove (Member Eye);
          Assign AGS None; Init (Member Descriptor); Rebind (reliable 3)]
         (constructed (Some [Eye]) (reliable 1)))
    = (st', Raise e).
Proof.
  split; [reflexivity|].
  exact (warper_is_never_recreated first_seen (reliable 0) (Some [Eye])
           (Some (reliable 1)) [] (constructed (Some [Eye]) (reliable 1))
           [Get HeadPose; Rebind (reliable 2); Remove (Member Eye);
            Assign AGS None; Init (Member Descriptor); Rebind (reliable 3)]
           eq_refl eq_refl).
Defined.

(** ** What an operation leaves alone *)

(** An operation other than an engine assignment, used as annotated, keeps
    the engine, the warper and the slot of every tag but its own, whether it
    returns or raises; and it makes no factory call, or one call of the
    factory of its tag on the engine of the collection. *)
Theorem operations_frame (op : Op) (st : State) :
  is_rebind op = false ->
  typed op = true ->
  _faceEngine (self (after st op)) = _faceEngine (self st) /\
  warper (self (after st op)) = warper (self st) /\
  (forall t,
     tag_of op <> Some t -> slot t (self (after st op)) = slot t (self st)) /\
  (calls (after st op) = calls st \/
   exists t,
     tag_of op = Some t /\
     calls (after st op)
     = (engine_id (_faceEngine (self st)), factory t) :: calls st).
Proof.
  intros Hop Hty. unfold after.
  destruct op as [v|t0|t0 v|v|e]; try discriminate Hop; cbn [perform tag_of].
  - destruct v as [t0| | | |]; try discriminate Hty.
    rewrite initEstimator_Member. unfold bind, create, store.
    destruct (engine_fails _ _ _); cbn [fst self calls].
    + repeat split; eauto.
    + rewrite faceEngine_upd, warper_upd. repeat split; eauto.
      intros t Hne. apply slot_upd_other. congruence.
  - rewrite fst_discard. destruct (slot t0 (self st)) as [h|] eqn:Hslot.
    + rewrite (getter_cached _ _ _ Hslot). cbn [fst]. repeat split; auto.
    + destruct (engine_fails (_faceEngine (self st)) (factory t0)
                  (length (calls st))) eqn:Hf.
      * rewrite (getter_engine_error _ _ Hslot Hf). cbn [fst self calls].
        repeat split; eauto.
      * rewrite (getter_empty _ _ Hslot Hf). cbn [fst self calls].
        rewrite faceEngine_upd, warper_upd. repeat split; eauto.
        intros t Hne. apply slot_upd_other. congruence.
  - destruct (setter t0) as [set|] eqn:Hset.
    + rewrite (setter_store _ _ Hset). unfold store. cbn [fst self calls].
      rewrite faceEngine_upd, warper_upd. repeat split; auto.
      intros t Hne. apply slot_upd_other. congruence.
    + cbn. repeat split; auto.
  - destruct v as [t0| | | |]; try discriminate Hty.
    destruct st as [log c]. destruct c.
    split; [destruct t0; reflexivity|]. split; [destruct t0; reflexivity|].
    split; [|left; destruct t0; reflexivity].
    intros t Hne. destruct t0, t; try reflexivity; contradiction Hne; reflexivity.
Qed.

Lemma operations_frame_witness :
  is_rebind (Get MouthState) = false /\
  typed (Get MouthState) = true /\
  _faceEngine (self (after (constructed (Some [Eye]) (reliable 1)) (Get MouthState)))
    = _faceEngine (self (constructed (Some [Eye]) (reliable 1))) /\
  warper (self (after (constructed (Some [Eye]) (reliable 1)) (Get MouthState)))
    = warper (self (constructed (Some [Eye]) (reliable 1))) /\
  (forall t,
     tag_of (Get MouthState) <> Some t ->
     slot t (self (after (constructed (Some [Eye]) (reliable 1)) (Get MouthState)))
     = slot t (self (constructed (Some [Eye]) (reliable 1)))) /\
  (calls (after (constructed (Some [Eye]) (reliable 1)) (Get MouthState))
     = calls (constructed (Some [Eye]) (reliable 1)) \/
   exists t,
     tag_of (Get MouthState) = Some t /\
     calls (after (constructed (Some [Eye]) (reliable 1)) (Get MouthState))
     = (engine_id (_faceEngine (self (constructed (Some [Eye]) (reliable 1)))),
        factory t) :: calls (constructed (Some [Eye]) (reliable 1))).
Proof.
  split; [reflexivity|]. split; [reflexivity|].
  exact (operations_frame (Get MouthState)
           (constructed (Some [Eye]) (reliable 1)) eq_refl eq_refl).
Defined.
